(** * Energy-mix importer (France): the XML-to-reading normalisation of
    [app.py], embedded as executable Rocq functions.

    Python values are modelled as follows.
    - [int] is [Z] (unbounded), [str] is [string] (a sequence of bytes; only
      ASCII digits and ASCII white space are recognised by [py_int]).
    - a raised exception is the [Err] branch of [outcome]; the exception
      classes that the program can meet are the constructors of [exception].
    - a [dict] with string keys is a [gmap string _]; a Reading is a
      [gmap string pyval] since it mixes [int] and [str] values.
    - a [list] indexed by a Python integer follows Python's rule for
      negative indices ([py_index]).
    - [xml.etree.ElementTree.Element] is the inductive [Element]. *)

From Stdlib Require Import ZArith Lia Ascii String List.
From stdpp Require Import base tactics option list strings gmap fin_maps.

Local Open Scope string_scope.
Local Open Scope Z_scope.

(** ** Exceptions and the error monad *)

Inductive exception : Type :=
| IndexError
| KeyError (key : string)
| ValueError
| TypeError
| OverflowError
| UnboundLocalError
| ParseError
| RequestException
| ClientError.

Inductive outcome (A : Type) : Type :=
| Ok (a : A)
| Err (e : exception).

Arguments Ok {A} a.
Arguments Err {A} e.

Definition bind {A B : Type} (m : outcome A) (k : A -> outcome B) : outcome B :=
  match m with
  | Ok a => k a
  | Err e => Err e
  end.

Notation "x <- m ;; k" := (bind m (fun x => k))
  (at level 100, m at next level, right associativity).

Definition of_option {A : Type} (o : option A) (e : exception) : outcome A :=
  match o with
  | Some a => Ok a
  | None => Err e
  end.

(** A [for] loop that threads an accumulator and stops at the first raise. *)
Fixpoint foldM {A S : Type} (body : S -> A -> outcome S) (s : S) (l : list A)
  : outcome S :=
  match l with
  | [] => Ok s
  | x :: l' => s' <- body s x ;; foldM body s' l'
  end.

(** A list comprehension whose element expression may raise. *)
Fixpoint comprehension {A B : Type} (f : A -> outcome B) (l : list A)
  : outcome (list B) :=
  match l with
  | [] => Ok []
  | x :: l' => y <- f x ;; ys <- comprehension f l' ;; Ok (y :: ys)
  end.

(** ** Python built-ins *)

(** [range(n)] *)
Definition range (n : nat) : list Z := map Z.of_nat (seq 0 n).

(** Normalisation of a Python list index: [l[k]] addresses position [k]
    for [0 <= k < len(l)], position [len(l) + k] for [-len(l) <= k < 0],
    and raises IndexError otherwise. *)
Definition py_index (len : nat) (k : Z) : option nat :=
  if (0 <=? k) && (k <? Z.of_nat len) then Some (Z.to_nat k)
  else if (- Z.of_nat len <=? k) && (k <? 0) then Some (Z.to_nat (Z.of_nat len + k))
  else None.

Definition list_getitem {A : Type} (l : list A) (k : Z) : outcome A :=
  match py_index (length l) k with
  | Some i => of_option (l !! i) IndexError
  | None => Err IndexError
  end.

Definition list_setitem {A : Type} (l : list A) (k : Z) (x : A) : outcome (list A) :=
  match py_index (length l) k with
  | Some i => Ok (<[i := x]> l)
  | None => Err IndexError
  end.

(** [d[key]] on a dict: KeyError when the key is absent. *)
Definition dict_getitem {V : Type} (d : gmap string V) (key : string) : outcome V :=
  of_option (d !! key) (KeyError key).

(** [d.get(key, default)] *)
Definition dict_get {V : Type} (d : gmap string V) (key : string) (default : V) : V :=
  match d !! key with
  | Some v => v
  | None => default
  end.

(** *** [int(str)] in base 10 *)

(** The ASCII white space that [int] skips at both ends of its text: tab,
    line feed, vertical tab, form feed, carriage return and space. *)
Definition is_space (c : ascii) : bool :=
  let n := nat_of_ascii c in
  ((9 <=? n)%nat && (n <=? 13)%nat) || (n =? 32)%nat.

Definition digit_val (c : ascii) : option Z :=
  let n := Z.of_nat (nat_of_ascii c) in
  if (48 <=? n) && (n <=? 57) then Some (n - 48) else None.

Fixpoint lstrip (l : list ascii) : list ascii :=
  match l with
  | c :: l' => if is_space c then lstrip l' else l
  | [] => []
  end.

Definition strip (l : list ascii) : list ascii :=
  rev (lstrip (rev (lstrip l))).

(** Decimal digits, with single underscores allowed between two digits.
    [after_digit] tells that the previous character was a digit. *)
Fixpoint digits_value (acc : Z) (after_digit : bool) (l : list ascii) : option Z :=
  match l with
  | [] => if after_digit then Some acc else None
  | c :: l' =>
      if Ascii.eqb c "_"%char then
        if after_digit then digits_value acc false l' else None
      else
        match digit_val c with
        | Some d => digits_value (10 * acc + d) true l'
        | None => None
        end
  end.

(** [py_int s = None] stands for [int(s)] raising ValueError.  The text is
    stripped of white space, may start with one sign, and is made of
    decimal digits.  This is [int] on the texts that [plain] describes
    below: ASCII characters only, and no more of them than the interpreter
    allows digits in an integer literal.  Decimal digits and white space
    outside ASCII, which [int] reads too, are refused here, and that limit
    is not applied; the statements that depend on what [int] reads are
    stated for plain texts. *)
Definition py_int (s : string) : option Z :=
  match strip (list_ascii_of_string s) with
  | "-"%char :: l => Z.opp <$> digits_value 0 false l
  | "+"%char :: l => digits_value 0 false l
  | l => digits_value 0 false l
  end.

(** [int(x)] where [x] is [None] or a [str]: TypeError on [None],
    ValueError on text that is not an integer literal. *)
Definition int_of_text (x : option string) : outcome Z :=
  match x with
  | None => Err TypeError
  | Some s => of_option (py_int s) ValueError
  end.

(** ** The [datetime] module, as far as [get_unix_timestamp] uses it *)

Module datetime.

Definition MINYEAR : Z := 1.
Definition MAXYEAR : Z := 9999.
(** [date(9999, 12, 31).toordinal()] *)
Definition MAXORDINAL : Z := 3652059.
(** [date(1970, 1, 1).toordinal()] *)
Definition EPOCH_ORDINAL : Z := 719163.

Definition is_leap (y : Z) : bool :=
  (y mod 4 =? 0) && (negb (y mod 100 =? 0) || (y mod 400 =? 0)).

Definition days_before_year (y : Z) : Z :=
  let p := y - 1 in p * 365 + p / 4 - p / 100 + p / 400.

Definition days_in_month (y m : Z) : Z :=
  if m =? 2 then (if is_leap y then 29 else 28)
  else if (m =? 4) || (m =? 6) || (m =? 9) || (m =? 11) then 30
  else 31.

Definition days_before_month (y m : Z) : Z :=
  nth (Z.to_nat m) [0; 0; 31; 59; 90; 120; 151; 181; 212; 243; 273; 304; 334] 0
  + (if (2 <? m) && is_leap y then 1 else 0).

(** Proleptic Gregorian ordinal: 0001-01-01 is day 1. *)
Definition ymd_to_ord (y m d : Z) : Z :=
  days_before_year y + days_before_month y m + d.

(** A naive [datetime] (no tzinfo, microsecond 0), kept as the ordinal of
    its date and the second of its day; the year, month and day fields of
    the Python object are in bijection with the ordinal. *)
Record t : Type := mk { ordinal : Z; second : Z }.

(** [datetime(y, m, d)] with the constructor's range checks. *)
Definition of_ymd (y m d : Z) : outcome t :=
  if (MINYEAR <=? y) && (y <=? MAXYEAR) && (1 <=? m) && (m <=? 12)
     && (1 <=? d) && (d <=? days_in_month y m)
  then Ok (mk (ymd_to_ord y m d) 0)
  else Err ValueError.

(** [timedelta], normalised: [0 <= seconds < 86400]. *)
Record timedelta : Type := mk_delta { days : Z; seconds : Z }.

(** [timedelta(minutes=n)] *)
Definition timedelta_minutes (n : Z) : outcome timedelta :=
  let s := n * 60 in
  let d := s / 86400 in
  if Z.abs d <=? 999999999 then Ok (mk_delta d (s mod 86400))
  else Err OverflowError.

(** [dt + delta] *)
Definition add (dt : t) (delta : timedelta) : outcome t :=
  let s := second dt + seconds delta in
  let o := ordinal dt + days delta + s / 86400 in
  if (1 <=? o) && (o <=? MAXORDINAL) then Ok (mk o (s mod 86400))
  else Err OverflowError.

(** Seconds since 0000-12-31T00:00:00 of a broken-down time. *)
Definition utc_to_seconds (dt : t) : Z := ordinal dt * 86400 + second dt.

Definition epoch : Z := EPOCH_ORDINAL * 86400.
Definition max_fold_seconds : Z := 24 * 3600.

(** *** [strptime(s, "%Y-%m-%d")]

    The directive patterns of [_strptime]:
    [%Y] is [\d\d\d\d], [%m] is [1[0-2]|0[1-9]|[1-9]] and
    [%d] is [3[01]|[12]\d|0[1-9]|[1-9]| [1-9]]; the whole string has to be
    consumed.  No alternative can match where an earlier one matched and
    the rest of the pattern failed, so the first that matches decides.
    Digits are the ASCII ones: this is [strptime] on ASCII texts, and a
    date written with other decimal digits, which [strptime] reads too,
    is refused here. *)

Definition in_range (c : ascii) (lo hi : Z) : option Z :=
  match digit_val c with
  | Some d => if (lo <=? d) && (d <=? hi) then Some d else None
  | None => None
  end.

Definition match_month (l : list ascii) : option (Z * list ascii) :=
  match l with
  | c1 :: c2 :: r =>
      match in_range c1 1 1, in_range c2 0 2 with
      | Some _, Some b => Some (10 + b, r)
      | _, _ =>
          match in_range c1 0 0, in_range c2 1 9 with
          | Some _, Some b => Some (b, r)
          | _, _ => (fun a => (a, c2 :: r)) <$> in_range c1 1 9
          end
      end
  | [c1] => (fun a => (a, [])) <$> in_range c1 1 9
  | [] => None
  end.

Definition match_day (l : list ascii) : option (Z * list ascii) :=
  match l with
  | c1 :: c2 :: r =>
      match in_range c1 3 3, in_range c2 0 1 with
      | Some _, Some b => Some (30 + b, r)
      | _, _ =>
          match in_range c1 1 2, in_range c2 0 9 with
          | Some a, Some b => Some (10 * a + b, r)
          | _, _ =>
              match in_range c1 0 0, in_range c2 1 9 with
              | Some _, Some b => Some (b, r)
              | _, _ =>
                  match in_range c1 1 9 with
                  | Some a => Some (a, c2 :: r)
                  | None =>
                      if Ascii.eqb c1 " "%char
                      then (fun b => (b, r)) <$> in_range c2 1 9
                      else None
                  end
              end
          end
      end
  | [c1] => (fun a => (a, [])) <$> in_range c1 1 9
  | [] => None
  end.

Definition match_ymd (s : string) : option (Z * Z * Z) :=
  match list_ascii_of_string s with
  | y1 :: y2 :: y3 :: y4 :: "-"%char :: l =>
      match digit_val y1, digit_val y2, digit_val y3, digit_val y4 with
      | Some a, Some b, Some c, Some d =>
          match match_month l with
          | Some (m, "-"%char :: l') =>
              match match_day l' with
              | Some (dd, []) => Some (1000 * a + 100 * b + 10 * c + d, m, dd)
              | _ => None
              end
          | _ => None
          end
      | _, _, _, _ => None
      end
  | _ => None
  end.

Definition strptime_ymd (s : string) : outcome t :=
  match match_ymd s with
  | Some (y, m, d) => of_ymd y m d
  | None => Err ValueError
  end.

Section LocalZone.

(** The process's local time zone: [utcoffset u] is the offset from UTC,
    in seconds, that [time.localtime] applies at POSIX time [u]. *)
Variable utcoffset : Z -> Z.

(** [local(u)]: the local broken-down time of the instant [u], again as
    seconds; ValueError when its year leaves [MINYEAR..MAXYEAR]. *)
Definition local (u : Z) : outcome Z :=
  let lt := u + utcoffset (u - epoch) in
  if (1 * 86400 <=? lt) && (lt <? (MAXORDINAL + 1) * 86400) then Ok lt
  else Err ValueError.

(** [local_to_seconds] for [fold = 0]: solve [t = local(u)] for [u]. *)
Definition local_to_seconds (dt : t) : outcome Z :=
  let t := utc_to_seconds dt in
  lt <- local t ;;
  let a := lt - t in
  let u1 := t - a in
  t1 <- local u1 ;;
  let finish (b : Z) : outcome Z :=
    let u2 := t - b in
    t2 <- local u2 ;;
    if t2 =? t then Ok u2
    else if t1 =? t then Ok u1
    else Ok (Z.max u1 u2) in
  if t1 =? t then
    let u2 := u1 - max_fold_seconds in
    lt2 <- local u2 ;;
    let b := lt2 - u2 in
    if a =? b then Ok u1 else finish b
  else finish (t1 - u1).

(** [int(dt.timestamp())] of a naive datetime with microsecond 0: the
    float is a whole number below 2^53, so [int] is exact. *)
Definition timestamp (dt : t) : outcome Z :=
  u <- local_to_seconds dt ;; Ok (u - epoch).

End LocalZone.

End datetime.

(** The zone of a process whose local time is UTC. *)
Definition UTC : Z -> Z := fun _ => 0.

(** A zone with a constant offset, in seconds east of UTC. *)
Definition fixed_offset (off : Z) : Z -> Z := fun _ => off.

Section GetUnixTimestamp.

Variable utcoffset : Z -> Z.

Definition get_unix_timestamp (date_str : string) (period : Z) : outcome Z :=
  date <- datetime.strptime_ymd date_str ;;
  delta <- datetime.timedelta_minutes (period * 15) ;;
  shifted <- datetime.add date delta ;;
  datetime.timestamp utcoffset shifted.

End GetUnixTimestamp.

(** ** The source document and the readings *)

(** [xml.etree.ElementTree.Element]: [attrib] is its attribute dict,
    [text] is [None] or the text before the first child, and indexing,
    [len] and iteration range over [children]. *)
#[warnings="-register-all"]
Inductive Element : Type :=
  mkElement (tag : string) (attrib : gmap string string)
            (text : option string) (children : list Element).

Definition tag (e : Element) : string := let (t, _, _, _) := e in t.
Definition attrib (e : Element) : gmap string string := let (_, a, _, _) := e in a.
Definition text (e : Element) : option string := let (_, _, t, _) := e in t.
Definition children (e : Element) : list Element := let (_, _, _, c) := e in c.

(** The values stored in a Reading: [int] or [str]. *)
Inductive pyval : Type :=
| VInt (n : Z)
| VStr (s : string).

Abbreviation Reading := (gmap string pyval).

(** [a += v] with [v] an [int]: integer addition, TypeError on a [str]. *)
Definition py_iadd (a : pyval) (v : Z) : outcome pyval :=
  match a with
  | VInt n => Ok (VInt (n + v))
  | VStr _ => Err TypeError
  end.

Definition ENERGY_TYPES : gmap string string :=
  list_to_map [
    ("NuclÃ©aire", "nuclear");
    ("Charbon", "coal");
    ("Gaz", "gas");
    ("Fioul", "heavy-oil");
    ("Pointe", "oil");
    ("Fioul + Pointe", "oil");
    ("Hydraulique", "hydro");
    ("Eolien", "wind");
    ("Solde", "others");
    ("Autres", "others");
    ("Pompage", "pumped-storage");
    ("Solaire", "solar");
    ("Consommation", "consumption")
  ].

(** [range(lo, hi)] *)
Definition range_from (lo hi : nat) : list Z := map Z.of_nat (seq lo (hi - lo)).

Section Parser.

Variable utcoffset : Z -> Z.

(** The element expression of the list comprehension of [parse_xml_day]. *)
Definition new_reading (day_element : Element) (period : Z) : outcome Reading :=
  date <- dict_getitem (attrib day_element) "date" ;;
  time <- get_unix_timestamp utcoffset date period ;;
  Ok (<["country" := VStr "FR"]> (<["time" := VInt time]> ∅)).

(** [int(period_element.text)] under [try ... except ValueError: value = 0];
    a TypeError is not caught. *)
Definition period_value (period_element : Element) : outcome Z :=
  match int_of_text (text period_element) with
  | Err ValueError => Ok 0
  | r => r
  end.

(** [result[int(period_element.attrib["periode"])]]: the index that is
    subscripted. *)
Definition period_index (period_element : Element) : outcome Z :=
  periode <- dict_getitem (attrib period_element) "periode" ;;
  of_option (py_int periode) ValueError.

(** The body of the inner loop of [parse_xml_day]. *)
Definition add_period (energy_type_element : Element)
    (result : list Reading) (period_element : Element) : outcome (list Reading) :=
  label <- dict_getitem (attrib energy_type_element) "v" ;;
  energy_type <- dict_getitem ENERGY_TYPES label ;;
  value <- period_value period_element ;;
  index <- period_index period_element ;;
  reading <- list_getitem result index ;;
  energy_sum <- py_iadd (dict_get reading energy_type (VInt 0)) value ;;
  index' <- period_index period_element ;;
  reading' <- list_getitem result index' ;;
  list_setitem result index' (<[energy_type := energy_sum]> reading').

(** The body of the outer loop of [parse_xml_day]. *)
Definition add_energy_type (result : list Reading) (energy_type_element : Element)
  : outcome (list Reading) :=
  foldM (add_period energy_type_element) result (children energy_type_element).

Definition parse_xml_day (day_element : Element) : outcome (list Reading) :=
  first <- list_getitem (children day_element) 0 ;;
  result <- comprehension (new_reading day_element)
                          (range (length (children first))) ;;
  foldM add_energy_type result (children day_element).

(** [ET.fromstring]: the XML parser, which returns the root element or
    raises ParseError. *)
Variable fromstring : string -> outcome Element.

Definition parse_xml (xml_string : string) : outcome (list Reading) :=
  root <- fromstring xml_string ;;
  foldM (fun result day_index =>
           day_element <- list_getitem (children root) day_index ;;
           day <- parse_xml_day day_element ;;
           Ok (result ++ day)%list)
        [] (range_from 7 (length (children root))).

End Parser.

(** ** The request URL of a day *)

(** [datetime.date]: the three fields of a calendar date. *)
Module date.

Record t : Type := mk { year : Z; month : Z; day : Z }.

Definition digit_char (n : Z) : ascii := ascii_of_nat (48 + Z.to_nat n).

(** [%d] and [%m]: two decimal digits, zero-padded. *)
Definition two_digits (n : Z) : string :=
  String (digit_char (n / 10)) (String (digit_char (n mod 10)) EmptyString).

(** [%Y] for a year of four digits; below 1000 the C library decides
    whether the year is padded, and the statements keep to four digits. *)
Definition four_digits (n : Z) : string :=
  String (digit_char (n / 1000))
    (String (digit_char (n / 100 mod 10))
       (String (digit_char (n / 10 mod 10))
          (String (digit_char (n mod 10)) EmptyString))).

(** [day.strftime('%d/%m/%Y')] *)
Definition strftime_dmy (d : t) : string :=
  (two_digits (day d) ++ "/" ++ two_digits (month d) ++ "/"
   ++ four_digits (year d))%string.

End date.

Definition get_url_for_day (day : date.t) : string :=
  ("https://eco2mix.rte-france.com/curves/eco2mixWeb?type=mix&dateDeb="
   ++ date.strftime_dmy day ++ "&dateFin=" ++ date.strftime_dmy day
   ++ "&mode=NORM")%string.

(** ** Persistence and the entry point

    The HTTP client and the Timestream client are external: their answers
    are the fields of [Services].  What the program prints is collected, in
    order, as a list of [line]s. *)

Inductive line : Type :=
| PrintReadings (p : list Reading)
| PrintWriting (reading : list Reading)
| PrintWriteStatus (status : Z)
| PrintRejected
| PrintRejectedIndex (index : Z) (reason : string)
| PrintExistingVersion (version : Z)
| PrintError
| PrintCreating
| PrintCreated
| PrintExists
| PrintCreateFailed.

(** One entry of [err.response["RejectedRecords"]]. *)
Record RejectedRecord : Type := {
  RecordIndex : Z;
  Reason : string;
  ExistingVersion : option Z
}.

(** One entry of [records]; [str] of an integer is kept as the integer. *)
Record TimestreamRecord : Type := {
  Time : pyval;
  MeasureValues : list (string * pyval)
}.

(** What [client.write_records] does: return a response (with or without
    an HTTP status code in its metadata), raise RejectedRecordsException,
    or raise another exception. *)
Inductive write_answer : Type :=
| WriteReturns (status : option Z)
| WriteRejects (rejected : list RejectedRecord)
| WriteRaises.

(** What [client.create_table] does. *)
Inductive create_answer : Type :=
| CreateReturns
| CreateConflicts
| CreateRaises.

Record Services : Type := {
  requests_get_text : string -> outcome string;
  timestream_client : outcome unit;
  create_table_call : create_answer;
  write_records_call : list TimestreamRecord -> write_answer
}.

(** Output lines so far, and the value or the exception. *)
Definition io (A : Type) : Type := list line * outcome A.

Definition io_bind {A B : Type} (m : io A) (k : A -> io B) : io B :=
  match m with
  | (out, Ok a) => let (out', r) := k a in (out ++ out', r)%list
  | (out, Err e) => (out, Err e)
  end.

Notation "x <~ m ;; k" := (io_bind m (fun x => k))
  (at level 100, m at next level, right associativity).

Definition print (l : line) : io unit := ([l], Ok tt).
Definition lift {A : Type} (r : outcome A) : io A := ([], r).

(** [reading[key]] where [reading] is a [list] and [key] a [str]: list
    indices must be integers or slices, so the subscript raises TypeError. *)
Definition list_getitem_str (reading : list Reading) (key : string) : outcome pyval :=
  Err TypeError.

(** [x * 1000] *)
Definition py_mul (x : pyval) (n : Z) : outcome pyval :=
  match x with
  | VInt a => Ok (VInt (a * n))
  | VStr _ => Err TypeError
  end.

(** The names of the sub-measures, in the order of [MeasureValues]. *)
Definition MEASURES : list string :=
  ["nuclear"; "coal"; "gas"; "heavy-oil"; "oil"; "hydro"; "wind"; "others";
   "pumped-storage"; "solar"; "consumption"].

(** The body of the [for r in reading] loop of [write_values]; the loop
    variable [r] is not used by the body, which subscripts [reading]. *)
Definition append_record (reading : list Reading)
    (records : list TimestreamRecord) (r : Reading) : outcome (list TimestreamRecord) :=
  time <- list_getitem_str reading "time" ;;
  millis <- py_mul time 1000 ;;
  values <- comprehension (fun name =>
              v <- list_getitem_str reading name ;; Ok (name, v)) MEASURES ;;
  Ok (records ++ [{| Time := millis; MeasureValues := values |}])%list.

(** The [except RejectedRecordsException] handler. After its loop, [rr] is
    the last rejected record, and is unbound when there is none. *)
Definition report_rejected (rejected : list RejectedRecord) : io unit :=
  _ <~ print PrintRejected ;;
  _ <~ (map (fun rr => PrintRejectedIndex (RecordIndex rr) (Reason rr)) rejected, Ok tt) ;;
  rr <~ lift (of_option (last rejected) UnboundLocalError) ;;
  match ExistingVersion rr with
  | Some v => print (PrintExistingVersion v)
  | None => lift (Ok tt)
  end.

Definition write_values (client : Services) (reading : list Reading) : io unit :=
  _ <~ print (PrintWriting reading) ;;
  records <~ lift (foldM (append_record reading) [] reading) ;;
  match write_records_call client records with
  | WriteReturns (Some status) => print (PrintWriteStatus status)
  | WriteReturns None => print PrintError
  | WriteRejects rejected => report_rejected rejected
  | WriteRaises => print PrintError
  end.

Definition create_table (client : Services) : io unit :=
  _ <~ print PrintCreating ;;
  match create_table_call client with
  | CreateReturns => print PrintCreated
  | CreateConflicts => print PrintExists
  | CreateRaises => print PrintCreateFailed
  end.

Record Response : Type := { statusCode : Z; body : string }.

Definition dquote : string := String "034"%char EmptyString.

(** [json.dumps] of a string without characters that JSON escapes: the
    text between double quotes. *)
Definition json_dumps (s : string) : string := (dquote ++ s ++ dquote)%string.

Section Entrypoint.

Variable utcoffset : Z -> Z.
Variable fromstring : string -> outcome Element.
Variable services : Services.

Definition lambda_handler (event : gmap string string) : io Response :=
  startDate <~ lift (dict_getitem event "startDate") ;;
  endDate <~ lift (dict_getitem event "endDate") ;;
  xml <~ lift (requests_get_text services
           ("https://eco2mix.rte-france.com/curves/eco2mixWeb?type=mix&dateDeb="
            ++ startDate ++ "&dateFin=" ++ endDate ++ "&mode=NORM")%string) ;;
  p <~ lift (parse_xml utcoffset fromstring xml) ;;
  _ <~ print (PrintReadings p) ;;
  _ <~ lift (timestream_client services) ;;
  _ <~ create_table services ;;
  _ <~ write_values services p ;;
  lift (Ok {| statusCode := 200; body := json_dumps "Job successful" |}).

End Entrypoint.

(** ** Vocabulary of the statements *)

(** Builders for source documents. *)
Definition period_node (periode : string) (txt : option string) : Element :=
  mkElement "valeur" {[ "periode" := periode ]} txt [].

Definition energy_type_node (v : string) (periods : list Element) : Element :=
  mkElement "type" {[ "v" := v ]} None periods.

Definition day_node (date : string) (energy_types : list Element) : Element :=
  mkElement "mixtr" {[ "date" := date ]} None energy_types.

Definition header_node : Element := mkElement "date_actuelle" ∅ None [].

Definition document (nodes : list Element) : Element :=
  mkElement "liste" ∅ None nodes.

(** The two periods of the wind scenario. *)
Definition wind_periods : list Element :=
  [period_node "0" (Some "100"); period_node "1" (Some "ND")].

(** A Reading with one energy field. *)
Definition reading1 (time : Z) (energy_type : string) (n : Z) : Reading :=
  <[energy_type := VInt n]> (<["country" := VStr "FR"]> (<["time" := VInt time]> ∅)).

(** The POSIX time of a date at midnight UTC. *)
Definition utc_midnight (d : datetime.t) : Z :=
  (datetime.ordinal d - datetime.EPOCH_ORDINAL) * 86400.

(** Midnight UTC of the date that a day node carries (0 when the attribute
    is missing or is not a date). *)
Definition day_midnight (day_element : Element) : Z :=
  match attrib day_element !! "date" with
  | Some date =>
      match datetime.strptime_ymd date with
      | Ok d => utc_midnight d
      | Err _ => 0
      end
  | None => 0
  end.

(** A day with two energy-type nodes whose labels both stand for oil, the
    first with its periods out of order. *)
Definition oil_day : Element :=
  day_node "2022-10-27"
    [energy_type_node "Pointe"
       [period_node "1" (Some "100"); period_node "0" (Some "7")];
     energy_type_node "Fioul + Pointe"
       [period_node "0" (Some "5"); period_node "1" (Some "ND")]].

(** The canonical identifier of the label of an energy-type node. *)
Definition normalize (energy_type_element : Element) : option string :=
  attrib energy_type_element !! "v" ≫= (ENERGY_TYPES !!.).

(** The integer quantity that a Reading holds for an identifier; 0 when the
    key is absent. *)
Definition energy (r : Reading) (c : string) : Z :=
  match r !! c with
  | Some (VInt n) => n
  | _ => 0
  end.

(** What the period node [p] of the energy-type node [el] adds to the
    identifier [c] of the reading at position [i], in a day of [n]
    readings. *)
Definition contribution (n i : nat) (c : string) (el p : Element) : Z :=
  match normalize el, period_index p, period_value p with
  | Some e, Ok k, Ok v =>
      if bool_decide (e = c) && bool_decide (py_index n k = Some i) then v else 0
  | _, _, _ => 0
  end.

Definition sum_list (l : list Z) : Z := foldr Z.add 0 l.

Definition energy_type_total (n i : nat) (c : string) (el : Element) : Z :=
  sum_list (map (contribution n i c el) (children el)).

Definition day_total (n i : nat) (c : string) (day : Element) : Z :=
  sum_list (map (energy_type_total n i c) (children day)).

(** The values of a Reading are integers, save the country tag. *)
Definition typed (r : Reading) : Prop :=
  forall c x, r !! c = Some x -> c = "country" \/ exists n, x = VInt n.

(** [adds delta result result']: the readings of [result'] are those of
    [result], position by position, with [delta i c] added to the identifier
    [c] of the reading at position [i]; the two fixed fields are kept. *)
Definition adds (delta : nat -> string -> Z) (result result' : list Reading) : Prop :=
  length result' = length result /\
  forall i r, result !! i = Some r ->
    exists r', result' !! i = Some r'
      /\ r' !! "time" = r !! "time"
      /\ r' !! "country" = r !! "country"
      /\ (typed r -> typed r')
      /\ (forall c, r !! c <> None -> r' !! c <> None)
      /\ forall c, energy r' c = energy r c + delta i c.

Definition is_ok {A : Type} (r : outcome A) : bool :=
  match r with
  | Ok _ => true
  | Err _ => false
  end.

(** A day node that follows the schema the parser expects: a date that
    [get_unix_timestamp] resolves for every interval, known labels, period
    texts that are strings, and [periode] attributes that index a reading. *)
Definition valid_period (n : nat) (p : Element) : bool :=
  match text p, period_index p with
  | Some _, Ok k => bool_decide (is_Some (py_index n k))
  | _, _ => false
  end.

Definition valid_energy_type (n : nat) (el : Element) : bool :=
  match normalize el with
  | Some _ => forallb (valid_period n) (children el)
  | None => false
  end.

Definition valid_day (utcoffset : Z -> Z) (day : Element) : bool :=
  match children day, attrib day !! "date" with
  | first :: _, Some date =>
      let n := length (children first) in
      forallb (fun k => is_ok (get_unix_timestamp utcoffset date k)) (range n)
      && forallb (valid_energy_type n) (children day)
  | _, _ => false
  end.

(** Fixtures: services whose calls all succeed, and an invocation. *)
Definition quiet_services (xml : string) : Services := {|
  requests_get_text := fun _ => Ok xml;
  timestream_client := Ok tt;
  create_table_call := CreateReturns;
  write_records_call := fun _ => WriteReturns (Some 200)
|}.

Definition sample_event : gmap string string :=
  <["endDate" := "27/10/2022"]> (<["startDate" := "27/10/2022"]> ∅).

Definition sample_day : Element :=
  day_node "2022-10-27" [energy_type_node "Eolien" wind_periods].

Definition sample_document : Element :=
  document (replicate 7 header_node ++ [sample_day]).

(** The Readings of [sample_day]. *)
Definition sample_readings : list Reading :=
  [reading1 1666828800 "wind" 100; reading1 1666829700 "wind" 0].

(** An XML parser that answers [root] whatever the text. *)
Definition parses_to (root : Element) : string -> outcome Element :=
  fun _ => Ok root.

(** A day whose second energy-type node has an unknown label and no
    period node. *)
Definition day_with_empty_unknown : Element :=
  day_node "2022-10-27"
    [energy_type_node "Eolien" [period_node "0" (Some "100")];
     energy_type_node "Biomasse" []].

(** The texts on which [py_int] is [int] and [datetime.strptime_ymd] is
    [strptime]: ASCII characters only, at most 4300 of them (the default
    limit of the interpreter on the digits of an integer literal). *)
Definition plain (s : string) : bool :=
  forallb (fun c => (nat_of_ascii c <? 128)%nat) (list_ascii_of_string s)
  && (String.length s <=? 4300)%nat.

Definition plain_option (o : option string) : bool :=
  match o with
  | Some s => plain s
  | None => true
  end.

(** A period node whose text and [periode] attribute are plain. *)
Definition plain_period (p : Element) : bool :=
  plain_option (text p) && plain_option (attrib p !! "periode").

(** A day node whose date and period nodes are plain. *)
Definition plain_day (day : Element) : bool :=
  plain_option (attrib day !! "date")
  && forallb (fun el => forallb plain_period (children el)) (children day).

(** The local zone of Paris in 2022, as [time.localtime] applies it: one
    hour east of UTC, and two from 27 March 01:00 UTC to 30 October
    01:00 UTC. *)
Definition paris_2022 (u : Z) : Z :=
  if (1648342800 <=? u) && (u <? 1667091600) then 7200 else 3600.

(** The day of the change to summer time, with thirteen intervals. *)
Definition spring_day : Element :=
  day_node "2022-03-27"
    [energy_type_node "Eolien"
       (map (fun k => period_node k (Some "1"))
          ["0"; "1"; "2"; "3"; "4"; "5"; "6"; "7"; "8"; "9"; "10"; "11"; "12"])].

(** The time of the reading at position [k] of a result. *)
Definition time_at (r : outcome (list Reading)) (k : nat) : option pyval :=
  match r with
  | Ok result => result !! k ≫= (fun reading => reading !! "time")
  | Err _ => None
  end.

(** The day nodes that [parse_xml_day] parses without failure: a first
    energy-type node; when it has period nodes, a date that
    [get_unix_timestamp] resolves for each of their positions; and, for
    every energy-type node that has period nodes, a known label and period
    nodes with a text and a [periode] that indexes a reading. *)
Definition accepted_energy_type (n : nat) (el : Element) : bool :=
  match children el with
  | [] => true
  | _ :: _ => valid_energy_type n el
  end.

Definition accepted_day (utcoffset : Z -> Z) (day : Element) : bool :=
  match children day with
  | [] => false
  | first :: _ =>
      let n := length (children first) in
      match n with
      | O => true
      | S _ =>
          match attrib day !! "date" with
          | Some date =>
              forallb (fun k => is_ok (get_unix_timestamp utcoffset date k)) (range n)
          | None => false
          end
      end
      && forallb (accepted_energy_type n) (children day)
  end.

(** The number of Readings that a day node stands for: the number of
    period nodes of its first energy-type node. *)
Definition intervals (day : Element) : nat :=
  match children day with
  | first :: _ => length (children first)
  | [] => 0%nat
  end.

(** The period node [p] of the energy-type node [el] is added to the
    identifier [c] of the reading at position [i], in a day of [n]
    readings. *)
Definition touches (n i : nat) (c : string) (el p : Element) : Prop :=
  normalize el = Some c
  /\ exists k, period_index p = Ok k /\ py_index n k = Some i.

(** Some period node of the day is added to [c] at position [i]. *)
Definition contributed (n i : nat) (c : string) (day : Element) : Prop :=
  exists el p, In el (children day) /\ In p (children el) /\ touches n i c el p.

(** [grows touch result result']: same length, and a key that a reading of
    [result'] holds was already held at this position in [result], or is
    one that [touch] names. *)
Definition grows (touch : nat -> string -> Prop) (result result' : list Reading)
  : Prop :=
  length result' = length result /\
  forall i r r', result !! i = Some r -> result' !! i = Some r' ->
    forall c, r' !! c <> None -> r !! c <> None \/ touch i c.

(** A day node with the energy-type nodes of [day] replaced. *)
Definition with_children (e : Element) (cs : list Element) : Element :=
  mkElement (tag e) (attrib e) (text e) cs.

(** Store answers used in the statements. *)
Definition sample_rejected : list RejectedRecord :=
  [{| RecordIndex := 0; Reason := "older"; ExistingVersion := Some 4 |};
   {| RecordIndex := 3; Reason := "invalid"; ExistingVersion := None |}].

Definition rejecting_services (xml : string) (rejected : list RejectedRecord)
  : Services := {|
  requests_get_text := fun _ => Ok xml;
  timestream_client := Ok tt;
  create_table_call := CreateConflicts;
  write_records_call := fun _ => WriteRejects rejected
|}.

(** ** Lemmas on the monad and the built-ins *)

Lemma bind_Ok {A B : Type} (m : outcome A) (k : A -> outcome B) (b : B) :
  bind m k = Ok b -> exists a, m = Ok a /\ k a = Ok b.
Proof. destruct m as [a|e]; simpl; [eauto | discriminate]. Qed.

Lemma of_option_Ok {A : Type} (o : option A) (e : exception) (a : A) :
  of_option o e = Ok a -> o = Some a.
Proof. destruct o; simpl; congruence. Qed.

Ltac inv_bind H :=
  let a := fresh "x" in
  let Ha := fresh "E" in
  apply bind_Ok in H; destruct H as (a & Ha & H).

Lemma foldM_app {A S : Type} (body : S -> A -> outcome S) (l1 l2 : list A) (s : S) :
  foldM body s (l1 ++ l2) = (s' <- foldM body s l1 ;; foldM body s' l2).
Proof.
  revert s. induction l1 as [|x l1 IH]; intros s; simpl; [reflexivity|].
  destruct (body s x); simpl; auto.
Qed.

Lemma py_index_lt (len : nat) (k : Z) (i : nat) :
  py_index len k = Some i -> (i < len)%nat.
Proof.
  unfold py_index.
  destruct ((0 <=? k) && (k <? Z.of_nat len)) eqn:H1;
    [|destruct ((- Z.of_nat len <=? k) && (k <? 0)) eqn:H2]; intros H;
    [| |discriminate]; injection H as <-.
  - apply andb_prop in H1 as [?%Z.leb_le ?%Z.ltb_lt]. lia.
  - apply andb_prop in H2 as [?%Z.leb_le ?%Z.ltb_lt]. lia.
Qed.

Lemma py_index_of_nat (len i : nat) :
  (i < len)%nat -> py_index len (Z.of_nat i) = Some i.
Proof.
  intros H. unfold py_index.
  destruct (_ && _) eqn:H1; [f_equal; lia |].
  apply andb_false_iff in H1 as [?%Z.leb_gt | ?%Z.ltb_ge]; lia.
Qed.

Lemma py_index_zero (len i : nat) : py_index len 0 = Some i -> i = 0%nat.
Proof.
  unfold py_index. rewrite andb_false_r.
  destruct (_ && _); intros [= <-]. reflexivity.
Qed.

Lemma list_getitem_Ok {A : Type} (l : list A) (k : Z) (x : A) :
  list_getitem l k = Ok x ->
  exists i, py_index (length l) k = Some i /\ l !! i = Some x.
Proof.
  unfold list_getitem. destruct (py_index _ _) as [i|]; [|discriminate].
  intros H%of_option_Ok. eauto.
Qed.

Lemma list_getitem_of_nat {A : Type} (l : list A) (i : nat) (x : A) :
  l !! i = Some x -> list_getitem l (Z.of_nat i) = Ok x.
Proof.
  intros H. unfold list_getitem.
  rewrite py_index_of_nat by (eapply lookup_lt_Some; eassumption).
  rewrite H. reflexivity.
Qed.

Lemma comprehension_Ok {A B : Type} (f : A -> outcome B) (l : list A) (ys : list B) :
  comprehension f l = Ok ys ->
  length ys = length l /\
  forall i x, l !! i = Some x -> exists y, ys !! i = Some y /\ f x = Ok y.
Proof.
  revert ys. induction l as [|a l IH]; simpl; intros ys H.
  - injection H as <-. split; [reflexivity|]. intros i x Hx. discriminate.
  - inv_bind H. inv_bind H. injection H as <-.
    destruct (IH _ E0) as [Hlen Hall]. split; [simpl; congruence|].
    intros [|i] z Hz; simpl in *.
    + injection Hz as <-. eauto.
    + auto.
Qed.

Lemma range_lookup (n i : nat) :
  (i < n)%nat -> range n !! i = Some (Z.of_nat i).
Proof.
  intros H. unfold range. rewrite list_lookup_fmap.
  rewrite lookup_seq_lt by assumption. reflexivity.
Qed.

Lemma length_range (n : nat) : length (range n) = n.
Proof. unfold range. rewrite length_map, length_seq. reflexivity. Qed.

(** Every canonical identifier is an energy field, never one of the two
    fixed fields of a Reading. *)
Lemma ENERGY_TYPES_not_fixed (v e : string) :
  ENERGY_TYPES !! v = Some e -> e <> "time" /\ e <> "country".
Proof.
  assert (H : map_Forall (fun _ e => e <> "time" /\ e <> "country") ENERGY_TYPES).
  { apply (bool_decide_unpack _). vm_compute. exact I. }
  apply H.
Qed.

(** ** The document parser *)

Section ParseXml.

Variable utcoffset : Z -> Z.

(** The loop of [parse_xml] over the indices of a suffix [l] of the
    children visits the nodes of [l] in order. *)
Lemma parse_xml_loop (pre l : list Element) (acc : list Reading) :
  foldM (fun result day_index =>
           day_element <- list_getitem (pre ++ l) day_index ;;
           day <- parse_xml_day utcoffset day_element ;;
           Ok (result ++ day)%list)
        acc (map Z.of_nat (seq (length pre) (length l)))
  = (days <- comprehension (parse_xml_day utcoffset) l ;;
     Ok (acc ++ concat days)%list).
Proof.
  revert pre acc. induction l as [|x l IH]; intros pre acc; simpl.
  - rewrite app_nil_r. reflexivity.
  - rewrite (list_getitem_of_nat _ _ x)
      by (rewrite lookup_app_r, Nat.sub_diag by lia; reflexivity).
    simpl. destruct (parse_xml_day utcoffset x) as [day|e]; simpl; [|reflexivity].
    specialize (IH (pre ++ [x])%list (acc ++ day)%list).
    rewrite length_app, <- app_assoc in IH. simpl in IH.
    rewrite Nat.add_1_r in IH. rewrite IH.
    destruct (comprehension _ l); simpl; [|reflexivity].
    rewrite app_assoc. reflexivity.
Qed.

Lemma parse_xml_unfold (fromstring : string -> outcome Element)
    (xml_string : string) (root : Element) :
  fromstring xml_string = Ok root ->
  (7 <= length (children root))%nat ->
  parse_xml utcoffset fromstring xml_string
  = (days <- comprehension (parse_xml_day utcoffset) (drop 7 (children root)) ;;
     Ok (concat days)).
Proof.
  intros Hroot Hlen. unfold parse_xml. rewrite Hroot. simpl.
  unfold range_from.
  pose proof (parse_xml_loop (take 7 (children root)) (drop 7 (children root)) [])
    as L.
  rewrite take_drop, length_take, length_drop in L.
  replace (7 `min` length (children root))%nat with 7%nat in L by lia.
  exact L.
Qed.

End ParseXml.

(** C1 (as the code has it): a document whose root has at most 7 child
    nodes is parsed without any failure, and the result is the empty list
    of Readings: the loop over [range(7, len(root))] has nothing to
    visit. *)
Theorem parse_xml_short_document (utcoffset : Z -> Z)
    (fromstring : string -> outcome Element) (xml_string : string) (root : Element) :
  fromstring xml_string = Ok root ->
  (length (children root) <= 7)%nat ->
  parse_xml utcoffset fromstring xml_string = Ok [].
Proof.
  intros Hroot Hlen. unfold parse_xml. rewrite Hroot. simpl.
  unfold range_from. replace (length (children root) - 7)%nat with 0%nat by lia.
  reflexivity.
Qed.

Lemma parse_xml_short_document_witness :
  parse_xml UTC (parses_to (document (replicate 7 header_node))) "<liste/>" = Ok [].
Proof.
  apply (parse_xml_short_document UTC _ _ (document (replicate 7 header_node)));
    [reflexivity | simpl; lia].
Defined.

(** C1, refuted as stated: a root with three child nodes (fewer than 7)
    does not make [parse_xml] fail with IndexError; it returns the empty
    list. *)
Lemma parse_xml_short_document_no_failure :
  (length (children (document (replicate 3 header_node))) < 7)%nat /\
  parse_xml UTC (parses_to (document (replicate 3 header_node))) "<liste/>" = Ok [] /\
  parse_xml UTC (parses_to (document (replicate 3 header_node))) "<liste/>"
  <> Err IndexError.
Proof.
  split; [simpl; lia|]. split; [reflexivity | discriminate].
Qed.

(** C9: for a document whose root has at least 8 child nodes, [parse_xml]
    is the concatenation of [parse_xml_day] over the nodes from the eighth
    on, in document order (the first failure of a day, if any, is the
    failure of the whole); with exactly 7 leading nodes and one day, the
    result is that of this day. *)
Theorem parse_xml_concatenates_days (utcoffset : Z -> Z)
    (fromstring : string -> outcome Element) (xml_string : string) (root : Element) :
  fromstring xml_string = Ok root ->
  (8 <= length (children root))%nat ->
  parse_xml utcoffset fromstring xml_string
  = (days <- comprehension (parse_xml_day utcoffset) (drop 7 (children root)) ;;
     Ok (concat days))
  /\ (forall headers day,
        children root = (headers ++ [day])%list -> length headers = 7%nat ->
        parse_xml utcoffset fromstring xml_string = parse_xml_day utcoffset day).
Proof.
  intros Hroot Hlen.
  pose proof (parse_xml_unfold utcoffset fromstring xml_string root Hroot) as U.
  split; [apply U; lia|].
  intros headers day Hch Hh. rewrite U by lia. rewrite Hch.
  rewrite drop_app_length' by done. simpl.
  destruct (parse_xml_day utcoffset day); simpl; [|reflexivity].
  rewrite app_nil_r. reflexivity.
Qed.

Lemma parse_xml_concatenates_days_witness :
  parse_xml UTC (parses_to sample_document) "<liste/>"
  = parse_xml_day UTC sample_day.
Proof.
  apply (proj2 (parse_xml_concatenates_days UTC (parses_to sample_document)
                  "<liste/>" sample_document eq_refl (le_n 8))
           (replicate 7 header_node) sample_day);
    reflexivity.
Defined.

(** C10: a day node without energy-type child makes [parse_xml_day] raise
    IndexError, at [day_element[0]], whatever else the node holds; no list
    of Readings, empty or not, is returned. *)
Theorem parse_xml_day_without_energy_type (utcoffset : Z -> Z) (day_element : Element) :
  children day_element = [] ->
  parse_xml_day utcoffset day_element = Err IndexError
  /\ parse_xml_day utcoffset day_element <> Ok [].
Proof.
  intros H. unfold parse_xml_day. rewrite H. simpl. split; [reflexivity | discriminate].
Qed.

Lemma parse_xml_day_without_energy_type_witness :
  parse_xml_day UTC (day_node "2022-10-27" []) = Err IndexError.
Proof.
  apply (parse_xml_day_without_energy_type UTC (day_node "2022-10-27" []) eq_refl).
Defined.

(** ** The day parser on built documents *)

Lemma new_reading_day_node (utcoffset : Z -> Z) (date : string)
    (energy_types : list Element) (period : Z) :
  new_reading utcoffset (day_node date energy_types) period
  = (time <- get_unix_timestamp utcoffset date period ;;
     Ok (<["country" := VStr "FR"]> (<["time" := VInt time]> ∅))).
Proof.
  unfold new_reading, day_node, attrib, dict_getitem.
  rewrite lookup_singleton_eq. reflexivity.
Qed.

(** C3 (as the code has it): the day node dated [2022-10-27], the form
    that [get_unix_timestamp] reads, with one node labelled [Eolien] and
    the periods 0 (text [100]) and 1 (text [ND]), yields exactly the two
    Readings of the scenario, whose times are those [get_unix_timestamp]
    resolves for the intervals 0 and 1. *)
Theorem parse_xml_day_wind_scenario (utcoffset : Z -> Z) (t0 t1 : Z) :
  get_unix_timestamp utcoffset "2022-10-27" 0 = Ok t0 ->
  get_unix_timestamp utcoffset "2022-10-27" 1 = Ok t1 ->
  parse_xml_day utcoffset (day_node "2022-10-27" [energy_type_node "Eolien" wind_periods])
  = Ok [reading1 t0 "wind" 100; reading1 t1 "wind" 0].
Proof.
  intros H0 H1. unfold parse_xml_day.
  change (children (day_node _ _)) with [energy_type_node "Eolien" wind_periods].
  change (list_getitem [energy_type_node "Eolien" wind_periods] 0)
    with (Ok (energy_type_node "Eolien" wind_periods)).
  cbn [bind].
  change (range (length (children (energy_type_node "Eolien" wind_periods))))
    with [0; 1].
  cbn [comprehension]. rewrite !new_reading_day_node, H0, H1. cbn [bind].
  vm_compute. reflexivity.
Qed.

Lemma parse_xml_day_wind_scenario_witness :
  parse_xml_day UTC (day_node "2022-10-27" [energy_type_node "Eolien" wind_periods])
  = Ok [reading1 1666828800 "wind" 100; reading1 1666829700 "wind" 0].
Proof.
  apply (parse_xml_day_wind_scenario UTC 1666828800 1666829700); reflexivity.
Defined.

(** C3, refuted as stated: with the date attribute [27/10/2022] the same
    day node makes [parse_xml_day] raise ValueError, the failure of
    [strptime] on a date that is not of the form [%Y-%m-%d]. *)
Lemma parse_xml_day_slash_date_raises :
  parse_xml_day UTC (day_node "27/10/2022" [energy_type_node "Eolien" wind_periods])
  = Err ValueError.
Proof. vm_compute. reflexivity. Qed.

(** ** Unknown labels *)

Lemma add_period_unknown_label (el p : Element) (result : list Reading) (v : string) :
  attrib el !! "v" = Some v -> ENERGY_TYPES !! v = None ->
  add_period el result p = Err (KeyError v).
Proof.
  intros Hv Hnone. unfold add_period, dict_getitem. rewrite Hv. simpl.
  rewrite Hnone. reflexivity.
Qed.

Lemma add_energy_type_unknown_label (el : Element) (result : list Reading) (v : string) :
  attrib el !! "v" = Some v -> ENERGY_TYPES !! v = None -> children el <> [] ->
  add_energy_type result el = Err (KeyError v).
Proof.
  intros Hv Hnone Hne. unfold add_energy_type.
  destruct (children el) as [|p ps]; [congruence|]. simpl.
  rewrite (add_period_unknown_label el p result v Hv Hnone). reflexivity.
Qed.

Lemma add_energy_type_no_period (el : Element) (result : list Reading) :
  children el = [] -> add_energy_type result el = Ok result.
Proof. intros H. unfold add_energy_type. rewrite H. reflexivity. Qed.

(** C7 (as the code has it): the label is looked up inside the loop over
    the period nodes.  When an energy-type node with an unknown label has
    at least one period node, [parse_xml_day] returns no Readings: it
    fails, and the failure is the KeyError of that label as soon as the
    readings were initialised and the energy-type nodes before it were
    processed without failure. *)
Theorem parse_xml_day_unknown_label (utcoffset : Z -> Z) (day_element : Element)
    (before after : list Element) (el : Element) (v : string) :
  children day_element = (before ++ el :: after)%list ->
  attrib el !! "v" = Some v ->
  ENERGY_TYPES !! v = None ->
  children el <> [] ->
  (exists e, parse_xml_day utcoffset day_element = Err e)
  /\ (forall first result0 result1,
        children day_element !! 0%nat = Some first ->
        comprehension (new_reading utcoffset day_element)
                      (range (length (children first))) = Ok result0 ->
        foldM add_energy_type result0 before = Ok result1 ->
        parse_xml_day utcoffset day_element = Err (KeyError v)).
Proof.
  intros Hch Hv Hnone Hne.
  assert (Hfold : forall result0,
             foldM add_energy_type result0 (children day_element)
             = (result1 <- foldM add_energy_type result0 before ;;
                Err (KeyError v))).
  { intros result0. rewrite Hch, foldM_app.
    destruct (foldM add_energy_type result0 before) as [result1|e]; simpl; [|reflexivity].
    rewrite (add_energy_type_unknown_label el result1 v Hv Hnone Hne). reflexivity. }
  unfold parse_xml_day. split.
  - destruct (list_getitem (children day_element) 0) as [first|e]; simpl; [|eauto].
    destruct (comprehension _ _) as [result0|e]; simpl; [|eauto].
    rewrite Hfold. destruct (foldM add_energy_type result0 before); simpl; eauto.
  - intros first result0 result1 Hfirst Hinit Hbefore.
    change 0 with (Z.of_nat 0).
    rewrite (list_getitem_of_nat _ 0 first Hfirst). simpl.
    rewrite Hinit. simpl. rewrite Hfold, Hbefore. reflexivity.
Qed.

Lemma parse_xml_day_unknown_label_witness :
  parse_xml_day UTC
    (day_node "2022-10-27"
       [energy_type_node "Eolien" [period_node "0" (Some "100")];
        energy_type_node "Biomasse" [period_node "0" (Some "5")]])
  = Err (KeyError "Biomasse").
Proof.
  refine (proj2 (parse_xml_day_unknown_label UTC
            (day_node "2022-10-27"
               [energy_type_node "Eolien" [period_node "0" (Some "100")];
                energy_type_node "Biomasse" [period_node "0" (Some "5")]])
            [energy_type_node "Eolien" [period_node "0" (Some "100")]] []
            (energy_type_node "Biomasse" [period_node "0" (Some "5")])
            "Biomasse" eq_refl _ _ _)
          (energy_type_node "Eolien" [period_node "0" (Some "100")])
          [<["country" := VStr "FR"]> (<["time" := VInt 1666828800]> ∅)]
          [reading1 1666828800 "wind" 100] eq_refl _ _).
  - vm_compute. reflexivity.
  - vm_compute. reflexivity.
  - discriminate.
  - vm_compute. reflexivity.
  - vm_compute. reflexivity.
Defined.

(** C7, refuted as stated: an energy-type node with an unknown label and no
    period node raises nothing; the day is parsed and the Readings of the
    other node are returned. *)
Lemma parse_xml_day_empty_unknown_label_accepted :
  normalize (energy_type_node "Biomasse" []) = None /\
  parse_xml_day UTC day_with_empty_unknown = Ok [reading1 1666828800 "wind" 100].
Proof. split; vm_compute; reflexivity. Qed.

(** ** The entry point *)

(** With at least one Reading, the first turn of the loop of
    [write_values] subscripts the list [reading] with a string. *)
Lemma write_values_raises_on_readings (client : Services) (r : Reading)
    (reading : list Reading) :
  write_values client (r :: reading)
  = ([PrintWriting (r :: reading)], Err TypeError).
Proof. reflexivity. Qed.

(** Without Reading, nothing of what the store answers reaches the caller,
    save a rejection that lists no record. *)
Lemma lambda_handler_no_reading (utcoffset : Z -> Z)
    (fromstring : string -> outcome Element) (services : Services)
    (event : gmap string string) (startDate endDate xml : string) :
  event !! "startDate" = Some startDate ->
  event !! "endDate" = Some endDate ->
  requests_get_text services
    ("https://eco2mix.rte-france.com/curves/eco2mixWeb?type=mix&dateDeb="
     ++ startDate ++ "&dateFin=" ++ endDate ++ "&mode=NORM")%string = Ok xml ->
  parse_xml utcoffset fromstring xml = Ok [] ->
  timestream_client services = Ok tt ->
  write_records_call services [] <> WriteRejects [] ->
  snd (lambda_handler utcoffset fromstring services event)
  = Ok {| statusCode := 200; body := json_dumps "Job successful" |}.
Proof.
  intros Hs He Hget Hparse Hclient Hwrite.
  unfold lambda_handler, dict_getitem. rewrite Hs, He. simpl.
  rewrite Hget. simpl. rewrite Hparse. simpl. rewrite Hclient. simpl.
  unfold create_table, write_values. simpl.
  destruct (create_table_call services); simpl;
    destruct (write_records_call services []) as [[status|]|rejected|]; simpl;
    try reflexivity.
  all: unfold report_rejected; simpl.
  all: destruct rejected as [|rr rejected] using rev_ind; [congruence|].
  all: rewrite last_snoc; simpl; destruct (ExistingVersion rr); reflexivity.
Qed.

(** C4, on the failing invocation: the fetch and the parse succeed with
    two Readings, the table is created, and [write_values] raises
    TypeError out of the handler; no response is returned. *)
Theorem lambda_handler_fails_with_readings :
  parse_xml UTC (parses_to sample_document) "<liste/>" = Ok sample_readings /\
  lambda_handler UTC (parses_to sample_document) (quiet_services "<liste/>") sample_event
  = ([PrintReadings sample_readings; PrintCreating; PrintCreated;
      PrintWriting sample_readings], Err TypeError).
Proof. split; vm_compute; reflexivity. Qed.

(** ** One turn of the inner loop *)

Lemma dict_get_energy (r : Reading) (c : string) (n : Z) :
  dict_get r c (VInt 0) = VInt n -> energy r c = n.
Proof.
  unfold dict_get, energy. destruct (r !! c) as [[m|s]|]; congruence.
Qed.

Lemma typed_dict_get (r : Reading) (c : string) :
  typed r -> c <> "country" -> dict_get r c (VInt 0) = VInt (energy r c).
Proof.
  intros Ht Hc. unfold dict_get, energy.
  destruct (r !! c) as [x|] eqn:E; [|reflexivity].
  destruct (Ht c x E) as [?|[n ->]]; [contradiction | reflexivity].
Qed.

(** When a turn succeeds, it has replaced one reading, the one that the
    [periode] attribute indexes, by itself with the parsed value added to
    the accumulator of the canonical identifier. *)
Lemma add_period_Ok (el p : Element) (result result' : list Reading) :
  add_period el result p = Ok result' ->
  exists e k i r n v,
    normalize el = Some e /\ period_value p = Ok v /\ period_index p = Ok k
    /\ py_index (length result) k = Some i /\ result !! i = Some r
    /\ dict_get r e (VInt 0) = VInt n
    /\ result' = <[i := <[e := VInt (n + v)]> r]> result.
Proof.
  intros H. unfold add_period in H.
  inv_bind H. apply of_option_Ok in E.
  inv_bind H. apply of_option_Ok in E0.
  inv_bind H. inv_bind H. inv_bind H. inv_bind H. inv_bind H. inv_bind H.
  rewrite E2 in E5. injection E5 as <-.
  rewrite E3 in E6. injection E6 as <-.
  apply list_getitem_Ok in E3 as (i & Hi & Hr).
  unfold list_setitem in H. rewrite Hi in H. injection H as <-.
  destruct (dict_get x3 x0 (VInt 0)) as [n|s] eqn:Hget; simpl in E4; [|discriminate].
  injection E4 as <-.
  exists x0, x2, i, x3, n, x1. unfold normalize. rewrite E. simpl.
  repeat split; assumption.
Qed.

(** Conversely, the turn succeeds on a known label, a text that is a
    string, an index in range and an integer accumulator. *)
Lemma add_period_run (el p : Element) (result : list Reading)
    (e : string) (k v : Z) (i : nat) (r : Reading) (n : Z) :
  normalize el = Some e -> period_value p = Ok v -> period_index p = Ok k ->
  py_index (length result) k = Some i -> result !! i = Some r ->
  dict_get r e (VInt 0) = VInt n ->
  add_period el result p = Ok (<[i := <[e := VInt (n + v)]> r]> result).
Proof.
  intros Hn Hv Hk Hi Hr Hget. unfold normalize in Hn.
  destruct (attrib el !! "v") as [label|] eqn:El; [|discriminate]. simpl in Hn.
  unfold add_period, dict_getitem. rewrite El. simpl. rewrite Hn. simpl.
  rewrite Hv. simpl. rewrite Hk. simpl.
  unfold list_getitem, list_setitem. rewrite Hi, Hr. simpl.
  rewrite Hget. simpl. reflexivity.
Qed.

Lemma normalize_not_fixed (el : Element) (e : string) :
  normalize el = Some e -> e <> "time" /\ e <> "country".
Proof.
  unfold normalize. destruct (attrib el !! "v") as [label|]; [|discriminate].
  simpl. apply ENERGY_TYPES_not_fixed.
Qed.

Lemma add_period_adds (el p : Element) (result result' : list Reading) :
  add_period el result p = Ok result' ->
  adds (fun i c => contribution (length result) i c el p) result result'.
Proof.
  intros H.
  apply add_period_Ok in H as (e & k & j & r0 & n & v & Hn & Hv & Hk & Hj & Hr0 & Hget & ->).
  destruct (normalize_not_fixed el e Hn) as [Htime Hcountry].
  split; [apply length_insert|].
  intros i r Hr. unfold contribution. rewrite Hn, Hk, Hv, Hj.
  destruct (decide (i = j)) as [->|Hne].
  - rewrite Hr0 in Hr. injection Hr as <-.
    exists (<[e := VInt (n + v)]> r0).
    split; [apply list_lookup_insert_eq; eapply lookup_lt_Some; eassumption|].
    split; [apply lookup_insert_ne; congruence|].
    split; [apply lookup_insert_ne; congruence|].
    split; [|split].
    + intros Ht c x. rewrite lookup_insert. case_decide.
      * intros [= <-]. right. eauto.
      * apply Ht.
    + intros c Hc. rewrite lookup_insert. case_decide; [discriminate | assumption].
    + intros c. rewrite (bool_decide_eq_true_2 (Some j = Some j)) by reflexivity.
      rewrite andb_true_r. unfold energy at 1. rewrite lookup_insert.
      case_bool_decide as Hec.
      * subst c. rewrite decide_True by reflexivity.
        rewrite (dict_get_energy _ _ _ Hget). reflexivity.
      * rewrite decide_False by assumption. unfold energy. lia.
  - exists r. rewrite list_lookup_insert_ne by congruence.
    repeat split; try done.
    intros c. rewrite (bool_decide_eq_false_2 (Some j = Some i)) by congruence.
    rewrite andb_false_r. lia.
Qed.

(** ** The two loops *)

Lemma adds_refl (result : list Reading) : adds (fun _ _ => 0) result result.
Proof.
  split; [reflexivity|]. intros i r Hr. exists r.
  repeat split; try done. intros c. lia.
Qed.

Lemma adds_trans (d1 d2 : nat -> string -> Z) (a b c : list Reading) :
  adds d1 a b -> adds d2 b c -> adds (fun i x => d1 i x + d2 i x) a c.
Proof.
  intros [L1 H1] [L2 H2]. split; [congruence|].
  intros i r Hr.
  destruct (H1 i r Hr) as (r1 & Hr1 & T1 & C1 & Ty1 & P1 & E1).
  destruct (H2 i r1 Hr1) as (r2 & Hr2 & T2 & C2 & Ty2 & P2 & E2).
  exists r2. repeat split; try congruence; auto.
  intros x. rewrite E2, E1. lia.
Qed.

Lemma adds_ext (d1 d2 : nat -> string -> Z) (a b : list Reading) :
  (forall i c, d1 i c = d2 i c) -> adds d1 a b -> adds d2 a b.
Proof.
  intros Hd [L H]. split; [assumption|].
  intros i r Hr. destruct (H i r Hr) as (r' & ? & ? & ? & ? & ? & E).
  exists r'. repeat split; try done. intros c. rewrite <- Hd. apply E.
Qed.

(** A loop whose turns each add their share adds the sum of the shares. *)
Lemma foldM_adds {A : Type} (body : list Reading -> A -> outcome (list Reading))
    (share : A -> nat -> string -> Z) (n : nat) :
  (forall s x s', length s = n -> body s x = Ok s' -> adds (share x) s s') ->
  forall l s s', length s = n -> foldM body s l = Ok s' ->
    adds (fun i c => sum_list (map (fun x => share x i c) l)) s s'.
Proof.
  intros Hbody. induction l as [|x l IH]; intros s s' Hlen H; simpl in H.
  - injection H as <-. apply adds_refl.
  - inv_bind H. pose proof (Hbody s x x0 Hlen E) as Hx.
    assert (Hlen' : length x0 = n) by (destruct Hx; congruence).
    pose proof (IH x0 s' Hlen' H) as Hl.
    eapply adds_ext; [|exact (adds_trans _ _ _ _ _ Hx Hl)].
    intros i c. reflexivity.
Qed.

Lemma add_energy_type_adds (el : Element) (result result' : list Reading) :
  add_energy_type result el = Ok result' ->
  adds (fun i c => energy_type_total (length result) i c el) result result'.
Proof.
  intros H. unfold add_energy_type in H. unfold energy_type_total.
  apply (foldM_adds (add_period el)
           (fun p i c => contribution (length result) i c el p) (length result));
    [|reflexivity|assumption].
  intros s p s' Hlen Hp. rewrite <- Hlen. apply add_period_adds. assumption.
Qed.

Lemma add_energy_types_adds (els : list Element) (result result' : list Reading) :
  foldM add_energy_type result els = Ok result' ->
  adds (fun i c => sum_list (map (energy_type_total (length result) i c) els))
       result result'.
Proof.
  intros H.
  apply (foldM_adds add_energy_type
           (fun el i c => energy_type_total (length result) i c el) (length result));
    [|reflexivity|assumption].
  intros s el s' Hlen Hel. rewrite <- Hlen. apply add_energy_type_adds. assumption.
Qed.

(** ** The initial readings *)

Lemma new_reading_Ok (utcoffset : Z -> Z) (day_element : Element) (period : Z)
    (r : Reading) :
  new_reading utcoffset day_element period = Ok r ->
  exists date time,
    attrib day_element !! "date" = Some date
    /\ get_unix_timestamp utcoffset date period = Ok time
    /\ r = <["country" := VStr "FR"]> (<["time" := VInt time]> ∅).
Proof.
  intros H. unfold new_reading in H. inv_bind H. apply of_option_Ok in E.
  inv_bind H. injection H as <-. eauto.
Qed.

Lemma initial_reading_fields (time : Z) :
  let r : Reading := <["country" := VStr "FR"]> (<["time" := VInt time]> ∅) in
  r !! "time" = Some (VInt time) /\ r !! "country" = Some (VStr "FR")
  /\ typed r /\ forall c, c <> "time" -> energy r c = 0.
Proof.
  simpl. split; [|split; [|split]].
  - rewrite lookup_insert_ne by discriminate. apply lookup_insert_eq.
  - apply lookup_insert_eq.
  - intros c x. rewrite !lookup_insert. repeat case_decide; try discriminate.
    + intros _. left. congruence.
    + intros [= <-]. right. eauto.
  - intros c Hc. unfold energy. rewrite !lookup_insert.
    repeat case_decide; try congruence. rewrite lookup_empty. reflexivity.
Qed.

(** What [parse_xml_day] returns is the list of initial readings, one per
    period node of the first energy-type node, with the totals of the day
    added. *)
Lemma parse_xml_day_Ok (utcoffset : Z -> Z) (day_element : Element)
    (result : list Reading) :
  parse_xml_day utcoffset day_element = Ok result ->
  exists first result0,
    children day_element !! 0%nat = Some first
    /\ comprehension (new_reading utcoffset day_element)
                     (range (length (children first))) = Ok result0
    /\ length result = length (children first)
    /\ adds (fun i c => day_total (length result) i c day_element) result0 result.
Proof.
  intros H. unfold parse_xml_day in H. inv_bind H. inv_bind H.
  apply list_getitem_Ok in E as (i & Hi & Hfirst).
  apply py_index_zero in Hi as ->.
  pose proof (comprehension_Ok _ _ _ E0) as [Hlen _]. rewrite length_range in Hlen.
  pose proof (add_energy_types_adds _ _ _ H) as Hadds.
  assert (Hlen' : length result = length x0) by (destruct Hadds; assumption).
  exists x, x0. split; [assumption|]. split; [assumption|].
  split; [congruence|]. unfold day_total. rewrite Hlen'. exact Hadds.
Qed.

(** ** Timestamps and the local zone of the process *)

Lemma strptime_ymd_second (s : string) (d : datetime.t) :
  datetime.strptime_ymd s = Ok d -> datetime.second d = 0.
Proof.
  unfold datetime.strptime_ymd, datetime.of_ymd.
  destruct (datetime.match_ymd s) as [[[y m] dd]|]; [|discriminate].
  destruct (_ && _); [|discriminate]. intros [= <-]. reflexivity.
Qed.

Lemma local_fixed_Ok (off u r : Z) :
  datetime.local (fixed_offset off) u = Ok r -> r = u + off.
Proof.
  unfold datetime.local, fixed_offset. destruct (_ && _); congruence.
Qed.

(** In a zone without transition the naive time is read at the constant
    offset. *)
Lemma local_to_seconds_fixed_Ok (off : Z) (dt : datetime.t) (u : Z) :
  datetime.local_to_seconds (fixed_offset off) dt = Ok u ->
  u = datetime.utc_to_seconds dt - off.
Proof.
  unfold datetime.local_to_seconds. intros H.
  inv_bind H. apply local_fixed_Ok in E as ->.
  replace (datetime.utc_to_seconds dt + off - datetime.utc_to_seconds dt)
    with off in H by lia.
  inv_bind H. apply local_fixed_Ok in E as ->.
  replace (datetime.utc_to_seconds dt - off + off)
    with (datetime.utc_to_seconds dt) in H by lia.
  rewrite Z.eqb_refl in H.
  inv_bind H. apply local_fixed_Ok in E as ->.
  replace (datetime.utc_to_seconds dt - off - datetime.max_fold_seconds + off
           - (datetime.utc_to_seconds dt - off - datetime.max_fold_seconds))
    with off in H by lia.
  rewrite Z.eqb_refl in H. congruence.
Qed.

Lemma local_to_seconds_UTC (dt : datetime.t) :
  2 * 86400 <= datetime.utc_to_seconds dt < (datetime.MAXORDINAL + 1) * 86400 ->
  datetime.local_to_seconds UTC dt = Ok (datetime.utc_to_seconds dt).
Proof.
  intros Hr. unfold datetime.local_to_seconds.
  assert (L : forall u, 1 * 86400 <= u < (datetime.MAXORDINAL + 1) * 86400 ->
                        datetime.local UTC u = Ok u).
  { intros u Hu. unfold datetime.local, UTC. rewrite Z.add_0_r.
    destruct (1 * 86400 <=? u) eqn:E1; [|apply Z.leb_gt in E1; lia].
    destruct (u <? _) eqn:E2; [reflexivity | apply Z.ltb_ge in E2; lia]. }
  rewrite L by lia. simpl bind. rewrite Z.sub_diag, Z.sub_0_r.
  rewrite L by lia. simpl bind. rewrite Z.eqb_refl.
  rewrite L by (unfold datetime.max_fold_seconds; lia). simpl bind.
  rewrite Z.sub_diag. reflexivity.
Qed.

(** Whenever [get_unix_timestamp] returns in a process whose local zone
    has a constant offset, it returns the time of the date at midnight UTC
    plus 900 seconds per interval, less the offset. *)
Lemma get_unix_timestamp_fixed_Ok (off : Z) (date_str : string) (i t : Z) :
  get_unix_timestamp (fixed_offset off) date_str i = Ok t ->
  exists d, datetime.strptime_ymd date_str = Ok d
            /\ t = utc_midnight d + 900 * i - off.
Proof.
  intros H. unfold get_unix_timestamp in H.
  inv_bind H. exists x. split; [assumption|].
  pose proof (strptime_ymd_second _ _ E) as Hsec.
  inv_bind H. unfold datetime.timedelta_minutes in E0.
  destruct (Z.abs _ <=? _); [|discriminate]. injection E0 as <-.
  inv_bind H. unfold datetime.add in E0. simpl in E0. rewrite Hsec in E0.
  rewrite (Z.div_small (0 + _)) in E0
    by (pose proof (Z.mod_pos_bound (i * 15 * 60) 86400 ltac:(lia)); lia).
  destruct (_ && _); [|discriminate]. injection E0 as <-.
  unfold datetime.timestamp in H. inv_bind H. injection H as <-.
  apply local_to_seconds_fixed_Ok in E0 as ->.
  unfold datetime.utc_to_seconds, utc_midnight, datetime.epoch. simpl.
  rewrite Z.add_0_l, Z.mod_mod by lia.
  pose proof (Z.div_mod (i * 15 * 60) 86400 ltac:(lia)). lia.
Qed.

Lemma get_unix_timestamp_UTC_Ok (date_str : string) (i t : Z) :
  get_unix_timestamp UTC date_str i = Ok t ->
  exists d, datetime.strptime_ymd date_str = Ok d /\ t = utc_midnight d + 900 * i.
Proof.
  intros H. apply (get_unix_timestamp_fixed_Ok 0) in H as (d & Hd & ->).
  exists d. split; [assumption | lia].
Qed.

(** C2, refuted as stated: past the last day of year 9999 the function
    raises OverflowError although the date is well formed and the index is
    not negative; on the first day that [datetime] represents,
    [timestamp] raises ValueError, for it looks one day back; and in a
    process whose local zone is two hours east of UTC the result is not
    the time of the date at midnight UTC. *)
Lemma get_unix_timestamp_range_and_zone :
  datetime.strptime_ymd "9999-12-31" = Ok (datetime.mk 3652059 0)
  /\ get_unix_timestamp UTC "9999-12-31" 96 = Err OverflowError
  /\ datetime.strptime_ymd "0001-01-01" = Ok (datetime.mk 1 0)
  /\ get_unix_timestamp UTC "0001-01-01" 0 = Err ValueError
  /\ datetime.strptime_ymd "2022-10-27" = Ok (datetime.mk 738455 0)
  /\ utc_midnight (datetime.mk 738455 0) + 900 * 0 = 1666828800
  /\ get_unix_timestamp (fixed_offset 7200) "2022-10-27" 0 = Ok 1666821600.
Proof. repeat split; vm_compute; reflexivity. Qed.

(** ** Progress of the day parser on well-formed days *)

Lemma adds_typed (delta : nat -> string -> Z) (a b : list Reading) :
  adds delta a b -> Forall typed a -> Forall typed b.
Proof.
  intros [Hlen H] Ha. apply Forall_lookup. intros i x Hx.
  destruct (lookup_lt_is_Some_2 a i) as [r Hr].
  { rewrite <- Hlen. eapply lookup_lt_Some. eassumption. }
  destruct (H i r Hr) as (r' & Hr' & _ & _ & Ht & _).
  rewrite Hx in Hr'. injection Hr' as <-.
  apply Ht. eapply Forall_lookup_1; eassumption.
Qed.

Lemma period_value_text (p : Element) (s : string) :
  text p = Some s ->
  period_value p = Ok (default 0 (py_int s)).
Proof.
  intros H. unfold period_value, int_of_text. rewrite H.
  destruct (py_int s); reflexivity.
Qed.

Lemma add_period_valid (el p : Element) (result : list Reading) (e : string) :
  normalize el = Some e -> Forall typed result ->
  valid_period (length result) p = true ->
  exists result', add_period el result p = Ok result'.
Proof.
  intros Hn Ht Hp. unfold valid_period in Hp.
  destruct (text p) as [s|] eqn:Es; [|discriminate].
  destruct (period_index p) as [k|] eqn:Ek; [|discriminate].
  apply bool_decide_eq_true_1 in Hp as [i Hi].
  destruct (lookup_lt_is_Some_2 result i (py_index_lt _ _ _ Hi)) as [r Hr].
  assert (Hr' : typed r) by (eapply Forall_lookup_1; eassumption).
  destruct (normalize_not_fixed el e Hn) as [_ Hc].
  eexists. eapply add_period_run; eauto using period_value_text, typed_dict_get.
Qed.

Lemma add_energy_type_valid (el : Element) (result : list Reading) :
  Forall typed result ->
  valid_energy_type (length result) el = true ->
  exists result', add_energy_type result el = Ok result'.
Proof.
  intros Ht Hv. unfold valid_energy_type in Hv.
  destruct (normalize el) as [e|] eqn:Hn; [|discriminate].
  unfold add_energy_type. revert result Ht Hv.
  induction (children el) as [|p ps IH]; intros result Ht Hv; simpl in *.
  - eauto.
  - apply andb_prop in Hv as [Hp Hps].
    destruct (add_period_valid el p result e Hn Ht Hp) as [result1 H1].
    rewrite H1. simpl.
    pose proof (add_period_adds _ _ _ _ H1) as Hadds.
    apply IH; [eapply adds_typed; eassumption|].
    destruct Hadds as [-> _]. assumption.
Qed.

Lemma add_energy_types_valid (els : list Element) (result : list Reading) :
  Forall typed result ->
  forallb (valid_energy_type (length result)) els = true ->
  exists result', foldM add_energy_type result els = Ok result'.
Proof.
  revert result. induction els as [|el els IH]; intros result Ht Hv; simpl in *.
  - eauto.
  - apply andb_prop in Hv as [Hel Hels].
    destruct (add_energy_type_valid el result Ht Hel) as [result1 H1].
    rewrite H1. simpl.
    pose proof (add_energy_type_adds _ _ _ H1) as Hadds.
    apply IH; [eapply adds_typed; eassumption|].
    destruct Hadds as [-> _]. assumption.
Qed.

Lemma comprehension_total {A B : Type} (f : A -> outcome B) (l : list A) :
  (forall x, In x l -> is_ok (f x) = true) ->
  exists ys, comprehension f l = Ok ys.
Proof.
  induction l as [|x l IH]; simpl; intros H; [eauto|].
  pose proof (H x (or_introl eq_refl)) as Hx.
  destruct (f x) as [y|]; [|discriminate].
  destruct IH as [ys ->]; [auto|]. simpl. eauto.
Qed.

Lemma initial_readings_typed (utcoffset : Z -> Z) (day_element : Element)
    (periods : list Z) (result : list Reading) :
  comprehension (new_reading utcoffset day_element) periods = Ok result ->
  Forall typed result.
Proof.
  intros H. apply Forall_lookup. intros i r Hr.
  destruct (comprehension_Ok _ _ _ H) as [Hlen Hall].
  destruct (lookup_lt_is_Some_2 periods i) as [k Hk].
  { rewrite <- Hlen. eapply lookup_lt_Some. eassumption. }
  destruct (Hall i k Hk) as (r' & Hr' & Hnew). rewrite Hr in Hr'. injection Hr' as <-.
  apply new_reading_Ok in Hnew as (date & time & _ & _ & ->).
  apply initial_reading_fields.
Qed.

(** A well-formed day is parsed without failure. *)
Lemma parse_xml_day_valid (utcoffset : Z -> Z) (day_element : Element) :
  valid_day utcoffset day_element = true ->
  exists result, parse_xml_day utcoffset day_element = Ok result.
Proof.
  intros Hv. unfold valid_day in Hv. unfold parse_xml_day.
  destruct (children day_element) as [|first rest] eqn:Hch; [discriminate|].
  destruct (attrib day_element !! "date") as [date|] eqn:Hdate; [|discriminate].
  apply andb_prop in Hv as [Htimes Hels].
  change (list_getitem (first :: rest) 0) with (Ok first). simpl bind.
  destruct (comprehension_total (new_reading utcoffset day_element)
              (range (length (children first)))) as [result0 H0].
  { intros k Hk. rewrite forallb_forall in Htimes. specialize (Htimes k Hk).
    unfold new_reading, dict_getitem. rewrite Hdate. simpl.
    destruct (get_unix_timestamp utcoffset date k); [reflexivity | discriminate]. }
  rewrite H0. simpl bind.
  apply (add_energy_types_valid (first :: rest)).
  - eapply initial_readings_typed. eassumption.
  - apply comprehension_Ok in H0 as [-> _]. rewrite length_range. assumption.
Qed.

(** ** The readings of a day *)

(** Whatever [parse_xml_day] returns in a process whose local zone has a
    constant offset has one reading per period node of the first
    energy-type node, tagged FR, at 900 seconds from one another. *)
Lemma parse_xml_day_shape (off : Z) (day_element : Element) (result : list Reading) :
  parse_xml_day (fixed_offset off) day_element = Ok result ->
  (exists first, children day_element !! 0%nat = Some first
                 /\ length result = length (children first))
  /\ forall k r, result !! k = Some r ->
       r !! "country" = Some (VStr "FR")
       /\ r !! "time"
          = Some (VInt (day_midnight day_element - off + 900 * Z.of_nat k)).
Proof.
  intros H. apply parse_xml_day_Ok in H as (first & result0 & Hfirst & H0 & Hlen & Hadds).
  split; [eauto|]. intros k r Hr.
  destruct Hadds as [Hl Hadds].
  destruct (lookup_lt_is_Some_2 result0 k) as [r0 Hr0].
  { rewrite <- Hl. eapply lookup_lt_Some. eassumption. }
  destruct (Hadds k r0 Hr0) as (r' & Hr' & Htime & Hcountry & _).
  rewrite Hr in Hr'. injection Hr' as <-. rewrite Htime, Hcountry.
  destruct (comprehension_Ok _ _ _ H0) as [Hlen0 Hall].
  assert (Hk : (k < length (children first))%nat).
  { rewrite <- (length_range (length (children first))), <- Hlen0.
    eapply lookup_lt_Some. eassumption. }
  destruct (Hall k _ (range_lookup _ _ Hk)) as (r1 & Hr1 & Hnew).
  rewrite Hr0 in Hr1. injection Hr1 as <-.
  apply new_reading_Ok in Hnew as (date & time & Hdate & Ht & ->).
  apply get_unix_timestamp_fixed_Ok in Ht as (d & Hd & ->).
  unfold day_midnight. rewrite Hdate, Hd.
  destruct (initial_reading_fields (utc_midnight d + 900 * Z.of_nat k - off))
    as (-> & -> & _).
  split; [reflexivity|]. do 2 f_equal. lia.
Qed.

(** C8 (as the code has it): in a process whose local zone has a constant
    offset from UTC (offset 0 for UTC itself), a well-formed day node with
    plain texts is parsed without
    failure, and whenever a day node whose first energy-type child has N
    period nodes is parsed, the result has exactly N Readings, each tagged
    FR; the reading at position k has the time of the first plus
    [900 * k] seconds, so that times are strictly increasing along the
    list, hence pairwise distinct. *)
Theorem parse_xml_day_readings (off : Z) (day_element first : Element)
    (rest : list Element) :
  children day_element = first :: rest ->
  (valid_day (fixed_offset off) day_element = true ->
   plain_day day_element = true ->
   exists result, parse_xml_day (fixed_offset off) day_element = Ok result)
  /\ (forall result, parse_xml_day (fixed_offset off) day_element = Ok result ->
        length result = length (children first)
        /\ (forall k r, result !! k = Some r ->
              r !! "country" = Some (VStr "FR")
              /\ r !! "time"
                 = Some (VInt (day_midnight day_element - off + 900 * Z.of_nat k)))
        /\ (forall j k rj rk tj tk, (j < k)%nat ->
              result !! j = Some rj -> result !! k = Some rk ->
              rj !! "time" = Some (VInt tj) -> rk !! "time" = Some (VInt tk) ->
              tj < tk)).
Proof.
  intros Hch. split; [intros Hv _; apply parse_xml_day_valid; assumption|].
  intros result H.
  destruct (parse_xml_day_shape _ _ _ H) as [(first' & Hfirst & Hlen) Hshape].
  rewrite Hch in Hfirst. injection Hfirst as <-.
  split; [assumption|]. split; [assumption|].
  intros j k rj rk tj tk Hjk Hj Hk Htj Htk.
  destruct (Hshape j rj Hj) as [_ Hj']. destruct (Hshape k rk Hk) as [_ Hk'].
  rewrite Hj' in Htj. rewrite Hk' in Htk.
  injection Htj as <-. injection Htk as <-. lia.
Qed.

Lemma parse_xml_day_readings_witness :
  parse_xml_day UTC oil_day
  = Ok [reading1 1666828800 "oil" 12; reading1 1666829700 "oil" 100]
  /\ length [reading1 1666828800 "oil" 12; reading1 1666829700 "oil" 100] = 2%nat
  /\ reading1 1666829700 "oil" 100 !! "time"
     = Some (VInt (day_midnight oil_day - 0 + 900 * Z.of_nat 1)).
Proof.
  pose proof (parse_xml_day_readings 0 oil_day
                (energy_type_node "Pointe"
                   [period_node "1" (Some "100"); period_node "0" (Some "7")])
                [energy_type_node "Fioul + Pointe"
                   [period_node "0" (Some "5"); period_node "1" (Some "ND")]]
                eq_refl) as [Hruns Hshape].
  destruct (Hruns ltac:(vm_compute; reflexivity) ltac:(vm_compute; reflexivity))
    as [result Hresult].
  assert (E : parse_xml_day UTC oil_day
              = Ok [reading1 1666828800 "oil" 12; reading1 1666829700 "oil" 100])
    by (vm_compute; reflexivity).
  split; [exact E|].
  destruct (Hshape _ E) as (Hlen & Htimes & _).
  split; [exact Hlen|].
  exact (proj2 (Htimes 1%nat (reading1 1666829700 "oil" 100) eq_refl)).
Defined.

(** C8, refuted as stated: in a process whose local zone is that of Paris,
    the day of the change to summer time, with thirteen intervals, is well
    formed and is parsed, and the readings at positions 8 and 12 (02:00,
    which that day has not, and 03:00) carry the same time: the times are
    neither pairwise distinct nor 900 seconds apart. *)
Lemma parse_xml_day_times_repeat_across_zone_change :
  valid_day paris_2022 spring_day = true
  /\ plain_day spring_day = true
  /\ time_at (parse_xml_day paris_2022 spring_day) 7 = Some (VInt 1648341900)
  /\ time_at (parse_xml_day paris_2022 spring_day) 8 = Some (VInt 1648342800)
  /\ time_at (parse_xml_day paris_2022 spring_day) 12 = Some (VInt 1648342800).
Proof. repeat split; vm_compute; reflexivity. Qed.

(** The quantity that a returned reading holds for an identifier is the
    total of the day for its position and this identifier. *)
Lemma parse_xml_day_totals (utcoffset : Z -> Z)
    (day_element : Element) (result : list Reading) :
  parse_xml_day utcoffset day_element = Ok result ->
  forall i r c, result !! i = Some r -> c <> "time" -> c <> "country" ->
    dict_get r c (VInt 0) = VInt (day_total (length result) i c day_element).
Proof.
  intros H.
  apply parse_xml_day_Ok in H as (first & result0 & _ & H0 & _ & Hadds).
  intros i r c Hr Htime Hcountry.
  pose proof (initial_readings_typed _ _ _ _ H0) as Ht0.
  pose proof (adds_typed _ _ _ Hadds Ht0) as Ht.
  rewrite typed_dict_get by (try assumption; eapply Forall_lookup_1; eassumption).
  f_equal. destruct Hadds as [Hl Hadds].
  destruct (lookup_lt_is_Some_2 result0 i) as [r0 Hr0].
  { rewrite <- Hl. eapply lookup_lt_Some. eassumption. }
  destruct (Hadds i r0 Hr0) as (r' & Hr' & _ & _ & _ & _ & Henergy).
  rewrite Hr in Hr'. injection Hr' as <-. rewrite Henergy.
  destruct (comprehension_Ok _ _ _ H0) as [_ Hall].
  assert (Hi : exists k, range (length (children first)) !! i = Some k).
  { apply lookup_lt_is_Some_2.
    apply comprehension_Ok in H0 as [<- _]. eapply lookup_lt_Some. eassumption. }
  destruct Hi as [k Hk]. destruct (Hall i k Hk) as (r1 & Hr1 & Hnew).
  rewrite Hr0 in Hr1. injection Hr1 as <-.
  apply new_reading_Ok in Hnew as (date & time & _ & _ & ->).
  destruct (initial_reading_fields time) as (_ & _ & _ & Hzero).
  rewrite (Hzero c Htime). lia.
Qed.

(** C6: in what [parse_xml_day] returns on a day whose texts are plain
    (ASCII, so that [py_int] is [int]), the quantity that the reading at
    position [i] holds for a canonical identifier [c] is the sum, over all
    energy-type nodes whose label normalises to [c] and all their period
    nodes whose own [periode] attribute indexes position [i], of the parsed
    values: a value is placed by the attribute and repeated contributions
    add up.  The labels [Pointe] and [Fioul + Pointe] both normalise to
    [oil], so their contributions to an interval are summed. *)
Theorem parse_xml_day_sums_contributions (utcoffset : Z -> Z)
    (day_element : Element) (result : list Reading) :
  plain_day day_element = true ->
  parse_xml_day utcoffset day_element = Ok result ->
  (forall i r c, result !! i = Some r -> c <> "time" -> c <> "country" ->
     dict_get r c (VInt 0) = VInt (day_total (length result) i c day_element))
  /\ ENERGY_TYPES !! "Pointe" = Some "oil"
  /\ ENERGY_TYPES !! "Fioul + Pointe" = Some "oil".
Proof.
  intros _ H. split; [|split; vm_compute; reflexivity].
  exact (parse_xml_day_totals utcoffset day_element result H).
Qed.

Lemma parse_xml_day_sums_contributions_witness :
  dict_get (reading1 1666828800 "oil" 12) "oil" (VInt 0) = VInt 12
  /\ dict_get (reading1 1666829700 "oil" 100) "oil" (VInt 0) = VInt 100.
Proof.
  pose proof (proj1 (parse_xml_day_sums_contributions UTC oil_day
                [reading1 1666828800 "oil" 12; reading1 1666829700 "oil" 100]
                ltac:(vm_compute; reflexivity)
                ltac:(vm_compute; reflexivity))) as H.
  split.
  - exact (H 0%nat (reading1 1666828800 "oil" 12) "oil" eq_refl
             ltac:(discriminate) ltac:(discriminate)).
  - exact (H 1%nat (reading1 1666829700 "oil" 100) "oil" eq_refl
             ltac:(discriminate) ltac:(discriminate)).
Defined.

(** ** Text that is not an integer *)

Lemma period_value_not_integer (p : Element) (s : string) :
  text p = Some s -> py_int s = None -> period_value p = Ok 0.
Proof. intros Ht Hs. rewrite (period_value_text p s Ht), Hs. reflexivity. Qed.

(** Such a period node adds nothing to the totals of the day. *)
Lemma contribution_not_integer (n i : nat) (c : string) (el p : Element) (s : string) :
  text p = Some s -> py_int s = None -> contribution n i c el p = 0.
Proof.
  intros Ht Hs. unfold contribution.
  rewrite (period_value_not_integer p s Ht Hs).
  destruct (normalize el); [|reflexivity].
  destruct (period_index p); [|reflexivity].
  destruct (_ && _); reflexivity.
Qed.

(** On a known label and an index in range, the turn of the loop for such
    a node raises nothing and leaves, in the reading that the [periode]
    attribute indexes, the canonical identifier present with its
    accumulator plus 0, that is with value 0 when nothing was accumulated
    before. *)
Lemma add_period_not_integer (el p : Element)
    (result : list Reading) (s e : string) (k : Z) (i : nat) (r : Reading) :
  text p = Some s -> py_int s = None ->
  normalize el = Some e -> period_index p = Ok k ->
  py_index (length result) k = Some i -> result !! i = Some r -> typed r ->
  exists result' r',
    add_period el result p = Ok result'
    /\ result' !! i = Some r'
    /\ r' !! e = Some (VInt (energy r e + 0))
    /\ (r !! e = None -> r' !! e = Some (VInt 0)).
Proof.
  intros Ht Hs Hn Hk Hi Hr Hty.
  pose proof (period_value_not_integer p s Ht Hs) as Hv.
  destruct (normalize_not_fixed el e Hn) as [_ Hc].
  pose proof (add_period_run el p result e k 0 i r (energy r e) Hn Hv Hk Hi Hr
                (typed_dict_get r e Hty Hc)) as Hrun.
  eexists _, _. split; [exact Hrun|].
  split; [apply list_lookup_insert_eq; eapply lookup_lt_Some; eassumption|].
  split; [apply lookup_insert_eq|].
  intros Hnone. rewrite lookup_insert_eq. unfold energy. rewrite Hnone. reflexivity.
Qed.

(** ** Presence of the keys *)

Lemma foldM_split {A S : Type} (body : S -> A -> outcome S) (l1 l2 : list A)
    (x : A) (s s' : S) :
  foldM body s (l1 ++ x :: l2) = Ok s' ->
  exists a b, foldM body s l1 = Ok a /\ body a x = Ok b /\ foldM body b l2 = Ok s'.
Proof.
  rewrite foldM_app. intros H. inv_bind H. simpl in H. inv_bind H. eauto.
Qed.

Lemma adds_present (delta : nat -> string -> Z) (a b : list Reading)
    (i : nat) (r : Reading) (c : string) :
  adds delta a b -> a !! i = Some r -> r !! c <> None ->
  exists r', b !! i = Some r' /\ r' !! c <> None.
Proof.
  intros [_ H] Hr Hc. destruct (H i r Hr) as (r' & Hr' & _ & _ & _ & Hp & _).
  eauto.
Qed.

(** Once a period node was processed, the reading it indexes holds the
    identifier of its energy-type node, and keeps it to the end of the
    day. *)
Lemma add_energy_type_present (el p : Element) (a b : list Reading)
    (e : string) (k : Z) (i : nat) :
  add_energy_type a el = Ok b -> In p (children el) ->
  normalize el = Some e -> period_index p = Ok k ->
  py_index (length a) k = Some i ->
  exists r, b !! i = Some r /\ r !! e <> None.
Proof.
  intros H Hin Hn Hk Hi. unfold add_energy_type in H.
  apply in_split in Hin as (ps1 & ps2 & Hps). rewrite Hps in H.
  apply foldM_split in H as (a1 & b1 & H1 & Hp & H2).
  assert (Hlen1 : length a1 = length a).
  { apply (foldM_adds (add_period el)
             (fun p i c => contribution (length a) i c el p) (length a)) in H1
      as [? _]; [assumption| |reflexivity].
    intros s x s' Hs Hx. rewrite <- Hs. apply add_period_adds. assumption. }
  pose proof Hp as Hp'.
  apply add_period_Ok in Hp' as (e' & k' & i' & r0 & n & v & Hn' & _ & Hk' & Hi' & Hr0 & _ & ->).
  rewrite Hn in Hn'. injection Hn' as <-. rewrite Hk in Hk'. injection Hk' as <-.
  rewrite Hlen1, Hi in Hi'. injection Hi' as <-.
  eapply (adds_present _ (<[i := <[e := VInt (n + v)]> r0]> a1) b).
  - apply (foldM_adds (add_period el)
             (fun p i c => contribution (length a) i c el p) (length a));
      [|rewrite length_insert; assumption|exact H2].
    intros s x s' Hs Hx. rewrite <- Hs. apply add_period_adds. assumption.
  - apply list_lookup_insert_eq. eapply lookup_lt_Some. eassumption.
  - rewrite lookup_insert_eq. discriminate.
Qed.

Lemma parse_xml_day_present (utcoffset : Z -> Z) (day_element el p : Element)
    (result : list Reading) (e : string) (k : Z) (i : nat) :
  parse_xml_day utcoffset day_element = Ok result ->
  In el (children day_element) -> In p (children el) ->
  normalize el = Some e -> period_index p = Ok k ->
  py_index (length result) k = Some i ->
  exists r, result !! i = Some r /\ r !! e <> None.
Proof.
  intros H Hel Hp Hn Hk Hi. unfold parse_xml_day in H.
  inv_bind H. inv_bind H.
  apply in_split in Hel as (els1 & els2 & Hels). rewrite Hels in H.
  apply foldM_split in H as (a & b & Ha & Hb & Hrest).
  pose proof (add_energy_types_adds _ _ _ Ha) as [La _].
  pose proof (add_energy_type_adds _ _ _ Hb) as [Lb _].
  pose proof (add_energy_types_adds _ _ _ Hrest) as Hadds.
  assert (Hlen : length result = length a) by (destruct Hadds; congruence).
  rewrite Hlen in Hi.
  destruct (add_energy_type_present el p a b e k i Hb Hp Hn Hk Hi) as (r & Hr & Hc).
  eapply adds_present; eassumption.
Qed.

Lemma valid_day_period (utcoffset : Z -> Z) (day_element el p : Element) :
  valid_day utcoffset day_element = true ->
  In el (children day_element) -> In p (children el) ->
  exists first e k i,
    children day_element !! 0%nat = Some first
    /\ normalize el = Some e /\ period_index p = Ok k
    /\ py_index (length (children first)) k = Some i.
Proof.
  intros Hv Hel Hp. unfold valid_day in Hv.
  destruct (children day_element) as [|first rest]; [discriminate|].
  destruct (attrib day_element !! "date"); [|discriminate].
  apply andb_prop in Hv as [_ Hels]. rewrite forallb_forall in Hels.
  specialize (Hels el Hel). unfold valid_energy_type in Hels.
  destruct (normalize el) as [e|]; [|discriminate].
  rewrite forallb_forall in Hels. specialize (Hels p Hp).
  unfold valid_period in Hels. destruct (text p); [|discriminate].
  destruct (period_index p) as [k|]; [|discriminate].
  apply bool_decide_eq_true_1 in Hels as [i Hi]. exists first. eauto 10.
Qed.

Lemma sum_list_zero {A : Type} (f : A -> Z) (l : list A) :
  (forall x, In x l -> f x = 0) -> sum_list (map f l) = 0.
Proof.
  induction l as [|x l IH]; simpl; intros H; [reflexivity|].
  rewrite (H x (or_introl eq_refl)), IH by auto. reflexivity.
Qed.

(** The total is 0 where every period node that is added parses to 0. *)
Lemma day_total_zero (n i : nat) (c : string) (day : Element) :
  (forall el p, In el (children day) -> In p (children el) ->
                touches n i c el p -> period_value p = Ok 0) ->
  day_total n i c day = 0.
Proof.
  intros H. unfold day_total. apply sum_list_zero. intros el Hel.
  unfold energy_type_total. apply sum_list_zero. intros p Hp.
  specialize (H el p Hel Hp). unfold contribution, touches in *.
  destruct (normalize el) as [e|]; [|reflexivity].
  destruct (period_index p) as [k|]; [|reflexivity].
  destruct (period_value p) as [v|]; [|reflexivity].
  destruct (bool_decide (e = c)) eqn:Ee; [|reflexivity].
  destruct (bool_decide (py_index n k = Some i)) eqn:Ei; [|reflexivity].
  apply bool_decide_eq_true_1 in Ee. apply bool_decide_eq_true_1 in Ei. subst e.
  assert (Hv : Ok v = Ok 0) by (apply H; split; [reflexivity | eauto]).
  simpl. congruence.
Qed.

(** C5 (as the code has it): on a well-formed day whose texts are plain
    (ASCII, so that [py_int s = None] is [int(s)] raising ValueError), a
    period node whose text [int] rejects (the token [ND] is one) raises
    nothing: the day is parsed and the node adds 0.  In the reading that
    its [periode] attribute indexes, the canonical identifier of its
    energy-type node is present, and its value is the total of what the
    period nodes of the day add to it: 0 when all the period nodes added
    to it parse to 0, the value of the others otherwise. *)
Theorem parse_xml_day_text_not_integer (utcoffset : Z -> Z)
    (day_element el p : Element) (s : string) :
  valid_day utcoffset day_element = true ->
  plain_day day_element = true ->
  In el (children day_element) -> In p (children el) ->
  text p = Some s -> py_int s = None ->
  period_value p = Ok 0
  /\ exists result e k i r,
       parse_xml_day utcoffset day_element = Ok result
       /\ normalize el = Some e /\ period_index p = Ok k
       /\ py_index (length result) k = Some i
       /\ result !! i = Some r
       /\ contribution (length result) i e el p = 0
       /\ r !! e = Some (VInt (day_total (length result) i e day_element))
       /\ ((forall el' p', In el' (children day_element) -> In p' (children el') ->
               touches (length result) i e el' p' -> period_value p' = Ok 0) ->
           r !! e = Some (VInt 0)).
Proof.
  intros Hv _ Hel Hp Ht Hs.
  split; [exact (period_value_not_integer p s Ht Hs)|].
  destruct (parse_xml_day_valid utcoffset day_element Hv) as [result H].
  destruct (valid_day_period _ _ _ _ Hv Hel Hp) as (first & e & k & i & Hch & Hn & Hk & Hi).
  pose proof H as H'.
  apply parse_xml_day_Ok in H' as (first' & _ & Hfirst & _ & Hlen & _).
  rewrite Hch in Hfirst. injection Hfirst as <-. rewrite <- Hlen in Hi.
  destruct (parse_xml_day_present _ _ _ _ _ _ _ _ H Hel Hp Hn Hk Hi) as (r & Hr & Hc).
  exists result, e, k, i, r. repeat (split; [assumption|]).
  split; [exact (contribution_not_integer _ _ _ _ _ s Ht Hs)|].
  destruct (normalize_not_fixed el e Hn) as [Htime Hcountry].
  pose proof (parse_xml_day_totals utcoffset day_element result H
                i r e Hr Htime Hcountry) as Hget.
  assert (Hval : r !! e = Some (VInt (day_total (length result) i e day_element)))
    by (unfold dict_get in Hget; destruct (r !! e); congruence).
  split; [exact Hval|].
  intros Hzero. rewrite Hval, (day_total_zero _ _ _ _ Hzero). reflexivity.
Qed.

Lemma parse_xml_day_text_not_integer_witness :
  exists r,
    parse_xml_day UTC sample_day
    = Ok [reading1 1666828800 "wind" 100; r]
    /\ r !! "wind" = Some (VInt 0).
Proof.
  destruct (parse_xml_day_text_not_integer UTC sample_day
              (energy_type_node "Eolien" wind_periods)
              (period_node "1" (Some "ND")) "ND"
              ltac:(vm_compute; reflexivity) ltac:(vm_compute; reflexivity)
              ltac:(left; reflexivity) ltac:(right; left; reflexivity)
              eq_refl eq_refl)
    as (_ & result & e & k & i & r & Hparse & Hn & Hk & Hi & Hr & _ & Hval & _).
  exists r.
  assert (He : e = "wind") by (vm_compute in Hn; congruence). subst e.
  assert (Hk1 : k = 1) by (vm_compute in Hk; congruence). subst k.
  assert (Hres : result = [reading1 1666828800 "wind" 100; reading1 1666829700 "wind" 0]).
  { assert (E : parse_xml_day UTC sample_day
                = Ok [reading1 1666828800 "wind" 100; reading1 1666829700 "wind" 0])
      by (vm_compute; reflexivity).
    congruence. }
  subst result. assert (i = 1%nat) by (vm_compute in Hi; congruence). subst i.
  injection Hr as <-. split; [exact Hparse|]. vm_compute. reflexivity.
Defined.

(** C5, refuted as stated: in a day where [Pointe] gives 100 for the
    interval 1 and [Fioul + Pointe] gives [ND] for it, the reading of that
    interval holds 100 for [oil], not 0: the sentinel adds 0 to what the
    other node gave. *)
Lemma parse_xml_day_sentinel_beside_value :
  py_int "ND" = None
  /\ In (period_node "1" (Some "ND"))
        (children (energy_type_node "Fioul + Pointe"
                     [period_node "0" (Some "5"); period_node "1" (Some "ND")]))
  /\ parse_xml_day UTC oil_day
     = Ok [reading1 1666828800 "oil" 12; reading1 1666829700 "oil" 100]
  /\ reading1 1666829700 "oil" 100 !! "oil" = Some (VInt 100).
Proof.
  split; [reflexivity|]. split; [right; left; reflexivity|].
  split; vm_compute; reflexivity.
Qed.

(** ** The calendar of [datetime] *)

(** The ordinal counts days: it grows by one from a day to the next, within
    a month, from the last day of a month to the first of the next, and
    from 31 December to 1 January; 1970-01-01 is day [EPOCH_ORDINAL]. *)
Lemma ymd_to_ord_next_day (y m d : Z) :
  datetime.ymd_to_ord y m (d + 1) = datetime.ymd_to_ord y m d + 1.
Proof. unfold datetime.ymd_to_ord. lia. Qed.

Lemma ymd_to_ord_next_month (y m : Z) :
  1 <= m < 12 ->
  datetime.ymd_to_ord y (m + 1) 1
  = datetime.ymd_to_ord y m (datetime.days_in_month y m) + 1.
Proof.
  intros Hm. unfold datetime.ymd_to_ord, datetime.days_before_month,
    datetime.days_in_month.
  assert (m = 1 \/ m = 2 \/ m = 3 \/ m = 4 \/ m = 5 \/ m = 6 \/ m = 7 \/ m = 8
          \/ m = 9 \/ m = 10 \/ m = 11) as Hcases by lia.
  destruct (datetime.is_leap y);
    repeat (destruct Hcases as [-> | Hcases]; [simpl; lia|]); subst m; simpl; lia.
Qed.

Lemma ymd_to_ord_next_year (y : Z) :
  datetime.ymd_to_ord (y + 1) 1 1 = datetime.ymd_to_ord y 12 31 + 1.
Proof.
  unfold datetime.ymd_to_ord, datetime.days_before_month, datetime.days_before_year,
    datetime.is_leap.
  replace (y + 1 - 1) with y by lia. simpl nth. simpl (2 <? _).
  rewrite !andb_false_l, !andb_true_l.
  destruct (y mod 4 =? 0) eqn:E4; destruct (y mod 100 =? 0) eqn:E100;
    destruct (y mod 400 =? 0) eqn:E400; simpl;
    rewrite ?Z.eqb_eq, ?Z.eqb_neq in *;
    Z.to_euclidean_division_equations; lia.
Qed.

Lemma ymd_to_ord_epoch : datetime.ymd_to_ord 1970 1 1 = datetime.EPOCH_ORDINAL.
Proof. reflexivity. Qed.

(** ** The day nodes that are accepted *)

Lemma period_value_Ok (p : Element) (v : Z) :
  period_value p = Ok v -> exists s, text p = Some s.
Proof.
  unfold period_value, int_of_text.
  destruct (text p) as [s|]; [eauto | discriminate].
Qed.

Lemma add_period_Ok_valid (el p : Element) (a b : list Reading) :
  add_period el a p = Ok b ->
  valid_period (length a) p = true /\ exists e, normalize el = Some e.
Proof.
  intros H.
  apply add_period_Ok in H as (e & k & i & r & n & v & Hn & Hv & Hk & Hi & _).
  split; [|eauto]. unfold valid_period.
  destruct (period_value_Ok p v Hv) as [s ->]. rewrite Hk.
  apply bool_decide_eq_true_2. rewrite Hi. eauto.
Qed.

(** In a loop that ran to its end, every turn ran without failure, on a
    list of the length the loop started with. *)
Lemma foldM_each {A : Type} (body : list Reading -> A -> outcome (list Reading))
    (n : nat) :
  (forall s x s', length s = n -> body s x = Ok s' -> length s' = n) ->
  forall l s s', length s = n -> foldM body s l = Ok s' ->
    length s' = n
    /\ forall x, In x l -> exists a b, length a = n /\ body a x = Ok b.
Proof.
  intros Hbody. induction l as [|y l IH]; intros s s' Hlen H; simpl in H.
  - injection H as <-. split; [assumption|]. intros x [].
  - inv_bind H. pose proof (Hbody s y x Hlen E) as Hlen'.
    destruct (IH x s' Hlen' H) as [Hn Hall]. split; [assumption|].
    intros z [<-|Hz]; [eauto | auto].
Qed.

Lemma add_period_length (el p : Element) (a b : list Reading) :
  add_period el a p = Ok b -> length b = length a.
Proof. intros H. apply add_period_adds in H as [H _]. exact H. Qed.

Lemma add_energy_type_length (el : Element) (a b : list Reading) :
  add_energy_type a el = Ok b -> length b = length a.
Proof. intros H. apply add_energy_type_adds in H as [H _]. exact H. Qed.

Lemma add_energy_type_Ok_accepted (el : Element) (a b : list Reading) :
  add_energy_type a el = Ok b -> accepted_energy_type (length a) el = true.
Proof.
  intros H. unfold accepted_energy_type, valid_energy_type.
  destruct (children el) as [|p ps] eqn:Hch; [reflexivity|].
  unfold add_energy_type in H. rewrite Hch in H.
  destruct (foldM_each (add_period el) (length a)) with (l := p :: ps) (s := a) (s' := b)
    as [_ Hall]; [|reflexivity|assumption|].
  { intros s x s' Hs Hx. rewrite <- Hs. eapply add_period_length. eassumption. }
  destruct (Hall p (or_introl eq_refl)) as (a0 & b0 & _ & H0).
  destruct (add_period_Ok_valid _ _ _ _ H0) as [_ [e ->]].
  apply forallb_forall. intros x Hx.
  destruct (Hall x Hx) as (a1 & b1 & Hlen1 & H1).
  destruct (add_period_Ok_valid _ _ _ _ H1) as [Hv _]. rewrite Hlen1 in Hv. exact Hv.
Qed.

Lemma add_energy_type_accepted (el : Element) (result : list Reading) :
  Forall typed result ->
  accepted_energy_type (length result) el = true ->
  exists result', add_energy_type result el = Ok result'.
Proof.
  intros Ht Ha. unfold accepted_energy_type in Ha.
  destruct (children el) as [|p ps] eqn:Hch.
  - exists result. apply add_energy_type_no_period. assumption.
  - apply add_energy_type_valid; assumption.
Qed.

Lemma add_energy_types_accepted (els : list Element) (result : list Reading) :
  Forall typed result ->
  forallb (accepted_energy_type (length result)) els = true ->
  exists result', foldM add_energy_type result els = Ok result'.
Proof.
  revert result. induction els as [|el els IH]; intros result Ht Hv; simpl in *.
  - eauto.
  - apply andb_prop in Hv as [Hel Hels].
    destruct (add_energy_type_accepted el result Ht Hel) as [result1 H1].
    rewrite H1. simpl.
    pose proof (add_energy_type_adds _ _ _ H1) as Hadds.
    apply IH; [eapply adds_typed; eassumption|].
    destruct Hadds as [-> _]. assumption.
Qed.

Lemma comprehension_each {A B : Type} (f : A -> outcome B) (l : list A) (ys : list B) :
  comprehension f l = Ok ys -> forall x, In x l -> is_ok (f x) = true.
Proof.
  revert ys. induction l as [|a l IH]; simpl; intros ys H x Hx; [contradiction|].
  inv_bind H. inv_bind H. destruct Hx as [<-|Hx]; [rewrite E; reflexivity | eauto].
Qed.

Lemma new_reading_is_ok (utcoffset : Z -> Z) (day_element : Element) (k : Z) :
  is_ok (new_reading utcoffset day_element k)
  = match attrib day_element !! "date" with
    | Some date => is_ok (get_unix_timestamp utcoffset date k)
    | None => false
    end.
Proof.
  unfold new_reading, dict_getitem.
  destruct (attrib day_element !! "date") as [date|]; simpl; [|reflexivity].
  destruct (get_unix_timestamp utcoffset date k); reflexivity.
Qed.

Lemma parse_xml_day_is_ok (utcoffset : Z -> Z) (day_element : Element) :
  is_ok (parse_xml_day utcoffset day_element) = accepted_day utcoffset day_element.
Proof.
  destruct (accepted_day utcoffset day_element) eqn:Ha.
  - unfold accepted_day in Ha. unfold parse_xml_day.
    destruct (children day_element) as [|first rest] eqn:Hch; [discriminate|].
    apply andb_prop in Ha as [Hdate Hels].
    change (list_getitem (first :: rest) 0) with (Ok first). cbn [bind].
    destruct (comprehension_total (new_reading utcoffset day_element)
                (range (length (children first)))) as [result0 H0].
    { intros k Hk. rewrite new_reading_is_ok.
      destruct (length (children first)) as [|n]; [destruct Hk|].
      destruct (attrib day_element !! "date"); [|discriminate].
      rewrite forallb_forall in Hdate. auto. }
    rewrite H0. cbn [bind].
    destruct (add_energy_types_accepted (first :: rest) result0) as [result ->];
      [eapply initial_readings_typed; eassumption| |reflexivity].
    apply comprehension_Ok in H0 as [-> _]. rewrite length_range. assumption.
  - destruct (parse_xml_day utcoffset day_element) as [result|e] eqn:H; [|reflexivity].
    exfalso. apply not_true_iff_false in Ha. apply Ha. clear Ha.
    unfold parse_xml_day in H. inv_bind H. inv_bind H.
    apply list_getitem_Ok in E as (i & Hi & Hfirst).
    apply py_index_zero in Hi as ->.
    unfold accepted_day.
    destruct (children day_element) as [|first rest] eqn:Hch; [discriminate|].
    injection Hfirst as ->.
    pose proof (comprehension_Ok _ _ _ E0) as [Hlen _]. rewrite length_range in Hlen.
    apply andb_true_intro. split.
    + destruct (length (children x)) as [|n] eqn:Hn; [reflexivity|].
      pose proof (comprehension_each _ _ _ E0 0 (or_introl eq_refl)) as H0.
      rewrite new_reading_is_ok in H0.
      destruct (attrib day_element !! "date") as [date|] eqn:Hdate; [|discriminate].
      apply forallb_forall. intros k Hk.
      pose proof (comprehension_each _ _ _ E0 k Hk) as Hk'.
      rewrite new_reading_is_ok, Hdate in Hk'. exact Hk'.
    + destruct (foldM_each add_energy_type (length x0)) with
        (l := x :: rest) (s := x0) (s' := result) as [_ Hall];
        [|reflexivity|assumption|].
      { intros s el s' Hs Hel. rewrite <- Hs. eapply add_energy_type_length. eassumption. }
      apply forallb_forall. intros el Hel.
      destruct (Hall el Hel) as (a & b & Ha & Hb).
      rewrite <- Hlen, <- Ha. eapply add_energy_type_Ok_accepted. eassumption.
Qed.

Lemma parse_xml_day_returns_accepted (utcoffset : Z -> Z) (day_element : Element) :
  (exists result, parse_xml_day utcoffset day_element = Ok result) ->
  accepted_day utcoffset day_element = true.
Proof.
  intros [result H]. rewrite <- parse_xml_day_is_ok, H. reflexivity.
Qed.

(** X1: on a day node whose texts are plain (ASCII, so that [py_int] is
    [int] and [datetime.strptime_ymd] is [strptime]), [parse_xml_day]
    returns a list of Readings exactly when [accepted_day] holds, and
    raises otherwise. *)
Theorem parse_xml_day_returns_iff_accepted (utcoffset : Z -> Z) (day_element : Element) :
  plain_day day_element = true ->
  ((exists result, parse_xml_day utcoffset day_element = Ok result)
   <-> accepted_day utcoffset day_element = true).
Proof.
  intros _. rewrite <- parse_xml_day_is_ok.
  destruct (parse_xml_day utcoffset day_element) as [result|e]; simpl; split.
  - reflexivity.
  - eauto.
  - intros [result H]. discriminate.
  - discriminate.
Qed.

Lemma parse_xml_day_returns_iff_accepted_witness :
  (exists result, parse_xml_day UTC oil_day = Ok result)
  <-> accepted_day UTC oil_day = true.
Proof.
  apply (parse_xml_day_returns_iff_accepted UTC oil_day). vm_compute. reflexivity.
Defined.

Lemma py_index_empty (k : Z) : py_index 0 k = None.
Proof.
  destruct (py_index 0 k) as [i|] eqn:E; [|reflexivity].
  apply py_index_lt in E. lia.
Qed.

Lemma accepted_energy_type_empty (el : Element) :
  accepted_energy_type 0 el = true <-> children el = [].
Proof.
  unfold accepted_energy_type, valid_energy_type.
  destruct (children el) as [|p ps]; [tauto|]. split; [|discriminate].
  destruct (normalize el); [|discriminate]. simpl.
  unfold valid_period. destruct (text p); [|discriminate].
  destruct (period_index p) as [k|]; [|discriminate].
  rewrite py_index_empty. intros H. apply andb_prop in H as [H _].
  apply bool_decide_eq_true_1 in H as [i Hi]. discriminate.
Qed.

(** X2: when the first energy-type node of a day has no period node, the
    date attribute is not read and no Reading can come out: the day is
    parsed, into the empty list, exactly when no energy-type node has a
    period node, and raises otherwise. *)
Theorem parse_xml_day_without_interval (utcoffset : Z -> Z)
    (day_element first : Element) (rest : list Element) :
  children day_element = first :: rest ->
  children first = [] ->
  (parse_xml_day utcoffset day_element = Ok []
   <-> forall el, In el (children day_element) -> children el = [])
  /\ (forall result, parse_xml_day utcoffset day_element = Ok result -> result = []).
Proof.
  intros Hch Hfirst.
  assert (Hempty : forall result, parse_xml_day utcoffset day_element = Ok result ->
                                  result = []).
  { intros result H. apply parse_xml_day_Ok in H as (first' & _ & Hf & _ & Hlen & _).
    rewrite Hch in Hf. injection Hf as <-. rewrite Hfirst in Hlen.
    destruct result; [reflexivity | discriminate]. }
  split; [|exact Hempty].
  pose proof (parse_xml_day_is_ok utcoffset day_element) as Hok.
  unfold accepted_day in Hok. rewrite Hch, Hfirst in Hok. simpl length in Hok.
  cbn [andb] in Hok. rewrite <- Hch in Hok. split.
  - intros H. rewrite H in Hok. simpl in Hok. symmetry in Hok.
    rewrite forallb_forall in Hok. intros el Hel.
    apply accepted_energy_type_empty. auto.
  - intros Hall.
    assert (Ha : forallb (accepted_energy_type 0) (children day_element) = true).
    { apply forallb_forall. intros el Hel. apply accepted_energy_type_empty. auto. }
    rewrite Ha in Hok.
    destruct (parse_xml_day utcoffset day_element) as [result|e] eqn:H; [|discriminate].
    rewrite (Hempty result eq_refl). reflexivity.
Qed.

Lemma parse_xml_day_without_interval_witness :
  parse_xml_day UTC
    (mkElement "mixtr" ∅ None [energy_type_node "Eolien" []; energy_type_node "Biomasse" []])
  = Ok [].
Proof.
  apply (proj1 (parse_xml_day_without_interval UTC
           (mkElement "mixtr" ∅ None
              [energy_type_node "Eolien" []; energy_type_node "Biomasse" []])
           (energy_type_node "Eolien" []) [energy_type_node "Biomasse" []]
           eq_refl eq_refl)).
  intros el [<-|[<-|[]]]; reflexivity.
Defined.

(** X3: when the first energy-type node has a period node, the date is
    read before any label or value: a day without date attribute raises
    the KeyError of [date], and a date that [get_unix_timestamp] rejects
    for the interval 0 raises that failure, whatever the energy-type nodes
    hold. *)
Theorem parse_xml_day_date_failure_first (utcoffset : Z -> Z)
    (day_element first : Element) (rest : list Element) :
  children day_element = first :: rest ->
  children first <> [] ->
  (attrib day_element !! "date" = None ->
   parse_xml_day utcoffset day_element = Err (KeyError "date"))
  /\ (forall date e, attrib day_element !! "date" = Some date ->
        get_unix_timestamp utcoffset date 0 = Err e ->
        parse_xml_day utcoffset day_element = Err e).
Proof.
  intros Hch Hne. unfold parse_xml_day. rewrite Hch.
  change (list_getitem (first :: rest) 0) with (Ok first). cbn [bind].
  destruct (children first) as [|p ps]; [congruence|].
  change (range (length (p :: ps))) with (0 :: map Z.of_nat (seq 1 (length ps))).
  cbn [comprehension]. split.
  - intros Hdate.
    assert (Hnew : new_reading utcoffset day_element 0 = Err (KeyError "date"))
      by (unfold new_reading, dict_getitem; rewrite Hdate; reflexivity).
    rewrite Hnew. reflexivity.
  - intros date e Hdate He.
    assert (Hnew : new_reading utcoffset day_element 0 = Err e)
      by (unfold new_reading, dict_getitem; rewrite Hdate; simpl; rewrite He;
          reflexivity).
    rewrite Hnew. reflexivity.
Qed.

Lemma parse_xml_day_date_failure_first_witness :
  parse_xml_day UTC
    (mkElement "mixtr" ∅ None [energy_type_node "Biomasse" [period_node "x" None]])
  = Err (KeyError "date").
Proof.
  apply (proj1 (parse_xml_day_date_failure_first UTC
           (mkElement "mixtr" ∅ None [energy_type_node "Biomasse" [period_node "x" None]])
           (energy_type_node "Biomasse" [period_node "x" None]) []
           eq_refl ltac:(discriminate))).
  reflexivity.
Defined.

Lemma py_index_negative (len : nat) (k : Z) :
  - Z.of_nat len <= k < 0 -> py_index len k = Some (Z.to_nat (Z.of_nat len + k)).
Proof.
  intros Hk. unfold py_index.
  destruct (0 <=? k) eqn:E1; [apply Z.leb_le in E1; lia|]. simpl.
  destruct (- Z.of_nat len <=? k) eqn:E2; [|apply Z.leb_gt in E2; lia].
  destruct (k <? 0) eqn:E3; [reflexivity | apply Z.ltb_ge in E3; lia].
Qed.

(** X4: a negative [periode] attribute is not refused: as a Python index
    it counts from the end of the day, so that in what [parse_xml_day]
    returns on a day whose texts are plain (ASCII, so that [py_int] is
    [int]) the value of a period node with [periode] [k],
    [-N <= k < 0], is part of the reading at position [N + k], where the
    identifier of its energy-type node holds the total for that
    position. *)
Theorem parse_xml_day_negative_periode (utcoffset : Z -> Z)
    (day_element el p : Element) (result : list Reading) (e : string) (k : Z) :
  plain_day day_element = true ->
  parse_xml_day utcoffset day_element = Ok result ->
  In el (children day_element) -> In p (children el) ->
  normalize el = Some e -> period_index p = Ok k ->
  - Z.of_nat (length result) <= k < 0 ->
  exists r,
    result !! Z.to_nat (Z.of_nat (length result) + k) = Some r
    /\ r !! e = Some (VInt (day_total (length result)
                              (Z.to_nat (Z.of_nat (length result) + k)) e day_element)).
Proof.
  intros _ H Hel Hp Hn Hk Hneg.
  pose proof (py_index_negative _ _ Hneg) as Hi.
  destruct (parse_xml_day_present _ _ _ _ _ _ _ _ H Hel Hp Hn Hk Hi) as (r & Hr & Hc).
  exists r. split; [assumption|].
  destruct (normalize_not_fixed el e Hn) as [Htime Hcountry].
  pose proof (parse_xml_day_totals utcoffset day_element result H _ r e Hr Htime Hcountry)
    as Hget.
  unfold dict_get in Hget. destruct (r !! e); congruence.
Qed.

Lemma parse_xml_day_negative_periode_witness :
  exists r,
    [reading1 1666828800 "wind" 0; reading1 1666829700 "wind" 100] !! 1%nat = Some r
    /\ r !! "wind" = Some (VInt 100).
Proof.
  exact (parse_xml_day_negative_periode UTC
           (day_node "2022-10-27"
              [energy_type_node "Eolien"
                 [period_node "-1" (Some "100"); period_node "-2" (Some "ND")]])
           (energy_type_node "Eolien"
              [period_node "-1" (Some "100"); period_node "-2" (Some "ND")])
           (period_node "-1" (Some "100"))
           [reading1 1666828800 "wind" 0; reading1 1666829700 "wind" 100]
           "wind" (-1)
           ltac:(vm_compute; reflexivity)
           ltac:(vm_compute; reflexivity) ltac:(left; reflexivity)
           ltac:(left; reflexivity) ltac:(vm_compute; reflexivity)
           ltac:(vm_compute; reflexivity) ltac:(simpl; lia)).
Defined.

(** ** The keys of the readings *)

Lemma grows_refl (touch : nat -> string -> Prop) (result : list Reading) :
  grows touch result result.
Proof.
  split; [reflexivity|]. intros i r r' Hr Hr' c Hc.
  rewrite Hr in Hr'. injection Hr' as <-. auto.
Qed.

Lemma grows_trans (t1 t2 t : nat -> string -> Prop) (a b c : list Reading) :
  (forall i x, t1 i x -> t i x) -> (forall i x, t2 i x -> t i x) ->
  grows t1 a b -> grows t2 b c -> grows t a c.
Proof.
  intros H1 H2 [L1 G1] [L2 G2]. split; [congruence|].
  intros i r r'' Hr Hr'' x Hx.
  destruct (lookup_lt_is_Some_2 b i) as [r' Hr'].
  { rewrite L1. eapply lookup_lt_Some. eassumption. }
  destruct (G2 i r' r'' Hr' Hr'' x Hx) as [Hx'|Ht]; [|auto].
  destruct (G1 i r r' Hr Hr' x Hx'); auto.
Qed.

Lemma foldM_grows {A : Type} (body : list Reading -> A -> outcome (list Reading))
    (touch : A -> nat -> string -> Prop) (n : nat) :
  (forall s x s', length s = n -> body s x = Ok s' -> grows (touch x) s s') ->
  forall l s s', length s = n -> foldM body s l = Ok s' ->
    grows (fun i c => exists x, In x l /\ touch x i c) s s'.
Proof.
  intros Hbody. induction l as [|y l IH]; intros s s' Hlen H; simpl in H.
  - injection H as <-. apply grows_refl.
  - inv_bind H. pose proof (Hbody s y x Hlen E) as Hy.
    assert (Hlen' : length x = n) by (destruct Hy; congruence).
    eapply grows_trans; [| |exact Hy|exact (IH x s' Hlen' H)].
    + intros i c Ht. exists y. split; [left; reflexivity | assumption].
    + intros i c (z & Hz & Ht). exists z. split; [right; assumption | assumption].
Qed.

Lemma add_period_grows (el p : Element) (a b : list Reading) :
  add_period el a p = Ok b ->
  grows (fun i c => touches (length a) i c el p) a b.
Proof.
  intros H.
  apply add_period_Ok in H as (e & k & j & r0 & n & v & Hn & _ & Hk & Hj & Hr0 & _ & ->).
  split; [apply length_insert|].
  intros i r r' Hr Hr' c Hc.
  destruct (decide (i = j)) as [->|Hne].
  - rewrite list_lookup_insert_eq in Hr' by (eapply lookup_lt_Some; eassumption).
    injection Hr' as <-. rewrite Hr0 in Hr. injection Hr as <-.
    rewrite lookup_insert in Hc. case_decide as Hec.
    + subst c. right. split; [assumption|]. eauto.
    + left. assumption.
  - rewrite list_lookup_insert_ne in Hr' by congruence.
    rewrite Hr in Hr'. injection Hr' as <-. left. assumption.
Qed.

Lemma add_energy_type_grows (el : Element) (a b : list Reading) :
  add_energy_type a el = Ok b ->
  grows (fun i c => exists p, In p (children el) /\ touches (length a) i c el p) a b.
Proof.
  intros H. unfold add_energy_type in H.
  apply (foldM_grows (add_period el)
           (fun p i c => touches (length a) i c el p) (length a));
    [|reflexivity|assumption].
  intros s p s' Hs Hp. rewrite <- Hs. apply add_period_grows. assumption.
Qed.

Lemma add_energy_types_grows (day_element : Element) (a b : list Reading) :
  foldM add_energy_type a (children day_element) = Ok b ->
  grows (fun i c => contributed (length a) i c day_element) a b.
Proof.
  intros H. unfold contributed.
  assert (Hbody : forall s el s', length s = length a -> add_energy_type s el = Ok s' ->
            grows (fun i c => exists p, In p (children el)
                                        /\ touches (length a) i c el p) s s').
  { intros s el s' Hs Hel. rewrite <- Hs. apply add_energy_type_grows. assumption. }
  destruct (foldM_grows add_energy_type _ (length a) Hbody
              (children day_element) a b eq_refl H) as [Hlen Hg].
  split; [assumption|].
  intros i r r' Hr Hr' c Hc.
  destruct (Hg i r r' Hr Hr' c Hc) as [?|(el & Hel & p & Hp & Ht)];
    [left; assumption | right; eauto].
Qed.

Lemma initial_reading_keys (time : Z) (c : string) :
  (<["country" := VStr "FR"]> (<["time" := VInt time]> ∅) : Reading) !! c <> None ->
  c = "time" \/ c = "country".
Proof.
  rewrite !lookup_insert. repeat case_decide; auto.
  rewrite lookup_empty. congruence.
Qed.

(** A key of a returned reading is one of the two fixed keys or the
    identifier of a period node that was added at this position. *)
Lemma parse_xml_day_keys (utcoffset : Z -> Z) (day_element : Element)
    (result : list Reading) (i : nat) (r : Reading) (c : string) :
  parse_xml_day utcoffset day_element = Ok result ->
  result !! i = Some r -> r !! c <> None ->
  c = "time" \/ c = "country" \/ contributed (length result) i c day_element.
Proof.
  intros H Hr Hc. unfold parse_xml_day in H. inv_bind H. inv_bind H.
  pose proof (add_energy_types_grows _ _ _ H) as [Hlen Hg].
  destruct (lookup_lt_is_Some_2 x0 i) as [r0 Hr0].
  { rewrite <- Hlen. eapply lookup_lt_Some. eassumption. }
  destruct (Hg i r0 r Hr0 Hr c Hc) as [Hc0|Ht].
  - destruct (comprehension_Ok _ _ _ E0) as [Hl Hall].
    destruct (lookup_lt_is_Some_2 (range (length (children x))) i) as [k Hk].
    { rewrite <- Hl. eapply lookup_lt_Some. eassumption. }
    destruct (Hall i k Hk) as (r1 & Hr1 & Hnew). rewrite Hr0 in Hr1. injection Hr1 as <-.
    apply new_reading_Ok in Hnew as (date & time & _ & _ & ->).
    destruct (initial_reading_keys time c Hc0); auto.
  - right. right. rewrite Hlen. assumption.
Qed.

Lemma ENERGY_TYPES_measures (v e : string) :
  ENERGY_TYPES !! v = Some e -> In e MEASURES.
Proof.
  assert (H : map_Forall (fun _ e => e ∈ MEASURES) ENERGY_TYPES).
  { apply (bool_decide_unpack _). vm_compute. exact I. }
  intros Hv. apply list_elem_of_In. exact (H v e Hv).
Qed.

(** X5: in what [parse_xml_day] returns on a day whose texts are plain
    (ASCII, so that [py_int] is [int]), an energy key is present in the
    reading at position [i] exactly when some period node of the day is
    added to it there: its energy-type node has this identifier and its
    [periode] attribute indexes position [i].  No other key is created
    and none is lost. *)
Theorem parse_xml_day_key_present_iff (utcoffset : Z -> Z) (day_element : Element)
    (result : list Reading) (i : nat) (r : Reading) (c : string) :
  plain_day day_element = true ->
  parse_xml_day utcoffset day_element = Ok result ->
  result !! i = Some r ->
  c <> "time" -> c <> "country" ->
  (r !! c <> None <-> contributed (length result) i c day_element).
Proof.
  intros _ H Hr Htime Hcountry. split.
  - intros Hc. destruct (parse_xml_day_keys _ _ _ _ _ _ H Hr Hc) as [?|[?|?]];
      [contradiction | contradiction | assumption].
  - intros (el & p & Hel & Hp & Hn & k & Hk & Hi).
    destruct (parse_xml_day_present _ _ _ _ _ _ _ _ H Hel Hp Hn Hk Hi) as (r' & Hr' & Hc).
    rewrite Hr in Hr'. injection Hr' as <-. assumption.
Qed.

Lemma parse_xml_day_key_present_iff_witness :
  reading1 1666828800 "oil" 12 !! "oil" <> None
  <-> contributed 2 0 "oil" oil_day.
Proof.
  exact (parse_xml_day_key_present_iff UTC oil_day
           [reading1 1666828800 "oil" 12; reading1 1666829700 "oil" 100]
           0%nat (reading1 1666828800 "oil" 12) "oil"
           ltac:(vm_compute; reflexivity)
           ltac:(vm_compute; reflexivity) eq_refl
           ltac:(discriminate) ltac:(discriminate)).
Defined.

(** X6: every key of a Reading that [parse_xml_day] returns is [time],
    [country] or one of the eleven measure names that [write_values]
    writes; the parser produces no field that the writer has no name
    for. *)
Theorem parse_xml_day_keys_are_measures (utcoffset : Z -> Z) (day_element : Element)
    (result : list Reading) (i : nat) (r : Reading) (c : string) (x : pyval) :
  parse_xml_day utcoffset day_element = Ok result ->
  result !! i = Some r -> r !! c = Some x ->
  c = "time" \/ c = "country" \/ In c MEASURES.
Proof.
  intros H Hr Hc.
  destruct (parse_xml_day_keys _ _ _ _ _ c H Hr) as [?|[?|Hcontrib]];
    [congruence | auto | auto |].
  right. right. destruct Hcontrib as (el & p & _ & _ & Hn & _).
  unfold normalize in Hn. destruct (attrib el !! "v") as [v|]; [|discriminate].
  simpl in Hn. eapply ENERGY_TYPES_measures. eassumption.
Qed.

Lemma parse_xml_day_keys_are_measures_witness :
  "oil" = "time" \/ "oil" = "country" \/ In "oil" MEASURES.
Proof.
  exact (parse_xml_day_keys_are_measures UTC oil_day
           [reading1 1666828800 "oil" 12; reading1 1666829700 "oil" 100]
           0%nat (reading1 1666828800 "oil" 12) "oil" (VInt 12)
           ltac:(vm_compute; reflexivity) eq_refl ltac:(vm_compute; reflexivity)).
Defined.

(** ** Whole documents *)

Lemma parse_xml_unfold_any (utcoffset : Z -> Z)
    (fromstring : string -> outcome Element) (xml_string : string) (root : Element) :
  fromstring xml_string = Ok root ->
  parse_xml utcoffset fromstring xml_string
  = (days <- comprehension (parse_xml_day utcoffset) (drop 7 (children root)) ;;
     Ok (concat days)).
Proof.
  intros Hroot.
  destruct (le_lt_dec 7 (length (children root))) as [Hlen|Hlen].
  - apply parse_xml_unfold; assumption.
  - rewrite drop_ge by lia. unfold parse_xml. rewrite Hroot. simpl.
    unfold range_from. replace (length (children root) - 7)%nat with 0%nat by lia.
    reflexivity.
Qed.

(** X7: [parse_xml] never looks at the first seven child nodes of the
    root: two documents whose roots have the same nodes from the eighth on
    are parsed to the same Readings, or fail with the same exception,
    whatever their first seven nodes are and however many of them there
    are. *)
Theorem parse_xml_ignores_leading_nodes (utcoffset : Z -> Z)
    (fromstring fromstring' : string -> outcome Element)
    (xml_string xml_string' : string) (root root' : Element) :
  fromstring xml_string = Ok root ->
  fromstring' xml_string' = Ok root' ->
  drop 7 (children root) = drop 7 (children root') ->
  parse_xml utcoffset fromstring xml_string
  = parse_xml utcoffset fromstring' xml_string'.
Proof.
  intros H H' Hdrop.
  rewrite (parse_xml_unfold_any _ _ _ _ H), (parse_xml_unfold_any _ _ _ _ H'), Hdrop.
  reflexivity.
Qed.

Lemma parse_xml_ignores_leading_nodes_witness :
  parse_xml UTC (parses_to sample_document) "<liste/>"
  = parse_xml UTC
      (parses_to (document (replicate 7 (day_node "27/10/2022" []) ++ [sample_day])))
      "<liste></liste>".
Proof.
  apply (parse_xml_ignores_leading_nodes UTC _ _ _ _ sample_document
           (document (replicate 7 (day_node "27/10/2022" []) ++ [sample_day])));
    reflexivity.
Defined.

Lemma comprehension_lengths (utcoffset : Z -> Z) (days : list Element)
    (results : list (list Reading)) :
  comprehension (parse_xml_day utcoffset) days = Ok results ->
  length (concat results) = sum_list_with intervals days.
Proof.
  revert results. induction days as [|d days IH]; simpl; intros results H.
  - injection H as <-. reflexivity.
  - inv_bind H. inv_bind H. injection H as <-. simpl.
    rewrite length_app, (IH _ E0). f_equal.
    apply parse_xml_day_Ok in E as (first & _ & Hfirst & _ & Hlen & _).
    unfold intervals. destruct (children d); [discriminate|].
    injection Hfirst as ->. assumption.
Qed.

(** X8: the number of Readings that [parse_xml] returns is the number of
    period nodes of the first energy-type node of each day, summed over
    the day nodes from the eighth on; the other energy-type nodes add no
    Reading. *)
Theorem parse_xml_length (utcoffset : Z -> Z)
    (fromstring : string -> outcome Element) (xml_string : string)
    (root : Element) (readings : list Reading) :
  fromstring xml_string = Ok root ->
  parse_xml utcoffset fromstring xml_string = Ok readings ->
  length readings = sum_list_with intervals (drop 7 (children root)).
Proof.
  intros Hroot H. rewrite (parse_xml_unfold_any _ _ _ _ Hroot) in H.
  inv_bind H. injection H as <-. eapply comprehension_lengths. eassumption.
Qed.

Lemma parse_xml_length_witness :
  length sample_readings
  = sum_list_with intervals (drop 7 (children sample_document)).
Proof.
  apply (parse_xml_length UTC (parses_to sample_document) "<liste/>"
           sample_document sample_readings eq_refl).
  vm_compute. reflexivity.
Defined.

Lemma comprehension_is_ok {A B : Type} (f : A -> outcome B) (l : list A) :
  is_ok (comprehension f l) = forallb (fun x => is_ok (f x)) l.
Proof.
  induction l as [|x l IH]; simpl; [reflexivity|].
  destruct (f x); simpl; [|reflexivity]. rewrite <- IH.
  destruct (comprehension f l); reflexivity.
Qed.

Lemma parse_xml_is_ok (utcoffset : Z -> Z)
    (fromstring : string -> outcome Element) (xml_string : string) (root : Element) :
  fromstring xml_string = Ok root ->
  is_ok (parse_xml utcoffset fromstring xml_string)
  = forallb (accepted_day utcoffset) (drop 7 (children root)).
Proof.
  intros Hroot. rewrite (parse_xml_unfold_any _ _ _ _ Hroot).
  transitivity (is_ok (comprehension (parse_xml_day utcoffset)
                         (drop 7 (children root)))).
  - destruct (comprehension _ _); reflexivity.
  - rewrite comprehension_is_ok. induction (drop 7 (children root)) as [|d l IH];
      simpl; [reflexivity|]. rewrite parse_xml_day_is_ok, IH. reflexivity.
Qed.

(** X9: when the day nodes of the document, from the eighth child of the
    root on, have plain texts (ASCII, so that [py_int] is [int] and
    [datetime.strptime_ymd] is [strptime]), [parse_xml] returns Readings
    exactly when the text is parsed as XML and each of these nodes is a
    day node that [parse_xml_day] accepts; one day that is not accepted
    fails the whole document, and no Reading of the other days is
    returned. *)
Theorem parse_xml_returns_iff (utcoffset : Z -> Z)
    (fromstring : string -> outcome Element) (xml_string : string) :
  (forall root, fromstring xml_string = Ok root ->
                forallb plain_day (drop 7 (children root)) = true) ->
  is_ok (parse_xml utcoffset fromstring xml_string)
  = match fromstring xml_string with
    | Ok root => forallb (accepted_day utcoffset) (drop 7 (children root))
    | Err _ => false
    end.
Proof.
  intros _. destruct (fromstring xml_string) as [root|e] eqn:Hroot.
  - apply parse_xml_is_ok. assumption.
  - unfold parse_xml. rewrite Hroot. reflexivity.
Qed.

Lemma parse_xml_returns_iff_witness :
  is_ok (parse_xml UTC (parses_to sample_document) "<liste/>")
  = forallb (accepted_day UTC) (drop 7 (children sample_document)).
Proof.
  apply (parse_xml_returns_iff UTC (parses_to sample_document) "<liste/>").
  intros root H. injection H as <-. vm_compute. reflexivity.
Defined.

(** ** Dates that are refused, and the day after *)

Lemma match_ymd_slash (a b : ascii) (s : string) :
  datetime.match_ymd (String a (String b (String "/" s))) = None.
Proof.
  unfold datetime.match_ymd. cbn [list_ascii_of_string].
  destruct (list_ascii_of_string s) as [|c4 [|c5 l]]; try reflexivity.
  destruct c5 as [[] [] [] [] [] [] [] []]; try reflexivity.
  destruct (digit_val a); [|reflexivity]. destruct (digit_val b); reflexivity.
Qed.

Lemma get_unix_timestamp_slash (utcoffset : Z -> Z) (a b : ascii) (s : string)
    (period : Z) :
  get_unix_timestamp utcoffset (String a (String b (String "/" s))) period
  = Err ValueError.
Proof.
  unfold get_unix_timestamp, datetime.strptime_ymd. rewrite match_ymd_slash.
  reflexivity.
Qed.

(** X10: a text whose third character is a slash, as every date written
    day/month/year is, is never resolved: [get_unix_timestamp] raises
    ValueError on it for every interval and in every zone. *)
Theorem get_unix_timestamp_rejects_slash_date (utcoffset : Z -> Z)
    (date_str : string) (period : Z) :
  String.get 2 date_str = Some "/"%char ->
  get_unix_timestamp utcoffset date_str period = Err ValueError.
Proof.
  destruct date_str as [|a [|b [|c s]]]; try discriminate.
  simpl. intros [= ->]. apply get_unix_timestamp_slash.
Qed.

Lemma get_unix_timestamp_rejects_slash_date_witness :
  get_unix_timestamp UTC "27/10/2022" 0 = Err ValueError.
Proof.
  apply (get_unix_timestamp_rejects_slash_date UTC "27/10/2022" 0). reflexivity.
Defined.

Lemma days_before_month_bounds (y m : Z) :
  1 <= m <= 12 -> 0 <= datetime.days_before_month y m <= 335.
Proof.
  intros Hm. unfold datetime.days_before_month.
  assert (m = 1 \/ m = 2 \/ m = 3 \/ m = 4 \/ m = 5 \/ m = 6 \/ m = 7 \/ m = 8
          \/ m = 9 \/ m = 10 \/ m = 11 \/ m = 12) as Hcases by lia.
  destruct (datetime.is_leap y);
    repeat (destruct Hcases as [-> | Hcases]; [simpl; lia|]); subst m; simpl; lia.
Qed.

Lemma strptime_ymd_ordinal (s : string) (d : datetime.t) :
  datetime.strptime_ymd s = Ok d ->
  datetime.second d = 0 /\ 1 <= datetime.ordinal d <= 3652100.
Proof.
  intros H. split; [eapply strptime_ymd_second; eassumption|].
  unfold datetime.strptime_ymd, datetime.of_ymd in H.
  destruct (datetime.match_ymd s) as [[[y m] dd]|]; [|discriminate].
  destruct (_ && _) eqn:Hc; [|discriminate]. injection H as <-. simpl.
  repeat (apply andb_prop in Hc as [Hc ?]).
  rewrite ?Z.leb_le in *. unfold datetime.MINYEAR, datetime.MAXYEAR in *.
  assert (Hd : dd <= 31).
  { unfold datetime.days_in_month in *.
    destruct (m =? 2); [destruct (datetime.is_leap y); lia|].
    destruct (_ || _); lia. }
  pose proof (days_before_month_bounds y m ltac:(lia)) as Hm.
  unfold datetime.ymd_to_ord, datetime.days_before_year.
  Z.to_euclidean_division_equations. lia.
Qed.

(** X11: the interval 96 of a day is the interval 0 of the day after:
    for two date texts that [strptime] reads as consecutive days,
    [get_unix_timestamp] of the first at interval [i + 96] and of the
    second at interval [i] are the same, value or exception, in every
    zone; the index is not bound to the 96 quarters of an hour of its
    day. *)
Theorem get_unix_timestamp_next_day (utcoffset : Z -> Z)
    (date_str next_str : string) (d d' : datetime.t) (i : Z) :
  datetime.strptime_ymd date_str = Ok d ->
  datetime.strptime_ymd next_str = Ok d' ->
  datetime.ordinal d' = datetime.ordinal d + 1 ->
  get_unix_timestamp utcoffset date_str (i + 96)
  = get_unix_timestamp utcoffset next_str i.
Proof.
  intros Hd Hd' Hnext.
  destruct (strptime_ymd_ordinal _ _ Hd) as [Hs Ho].
  destruct (strptime_ymd_ordinal _ _ Hd') as [Hs' Ho'].
  unfold get_unix_timestamp. rewrite Hd, Hd'. cbn [bind].
  unfold datetime.timedelta_minutes.
  replace ((i + 96) * 15 * 60) with (i * 15 * 60 + 1 * 86400) by lia.
  rewrite Z.div_add, Z_mod_plus_full by lia.
  set (q := i * 15 * 60 / 86400). set (m := (i * 15 * 60) mod 86400).
  assert (Hm : 0 <= m < 86400) by (apply Z.mod_pos_bound; lia).
  unfold datetime.add, datetime.MAXORDINAL.
  destruct (Z.abs (q + 1) <=? 999999999) eqn:E1;
    destruct (Z.abs q <=? 999999999) eqn:E2; cbn [bind datetime.days datetime.seconds];
    rewrite ?Hs, ?Hs', ?Hnext, ?Z.add_0_l, ?(Z.div_small m 86400 Hm), ?Z.add_0_r.
  - replace (datetime.ordinal d + 1 + q) with (datetime.ordinal d + (q + 1)) by lia.
    reflexivity.
  - apply Z.leb_le in E1. apply Z.leb_gt in E2.
    destruct (1 <=? datetime.ordinal d + (q + 1)) eqn:E3; [|reflexivity].
    apply Z.leb_le in E3. lia.
  - apply Z.leb_gt in E1. apply Z.leb_le in E2.
    destruct (datetime.ordinal d + 1 + q <=? 3652059) eqn:E3;
      [apply Z.leb_le in E3; lia|].
    rewrite andb_false_r. reflexivity.
  - reflexivity.
Qed.

Lemma get_unix_timestamp_next_day_witness :
  get_unix_timestamp UTC "2022-10-27" (4 + 96) = get_unix_timestamp UTC "2022-10-28" 4.
Proof.
  apply (get_unix_timestamp_next_day UTC "2022-10-27" "2022-10-28"
           (datetime.mk 738455 0) (datetime.mk 738456 0) 4);
    reflexivity.
Defined.

(** X12: what [get_unix_timestamp] returns follows the local zone of the
    process: between two processes whose zones have constant offsets, the
    results for the same date and interval differ by the difference of
    the offsets, the zone further east giving the smaller number. *)
Theorem get_unix_timestamp_zone_shift (off off' : Z) (date_str : string) (i t t' : Z) :
  get_unix_timestamp (fixed_offset off) date_str i = Ok t ->
  get_unix_timestamp (fixed_offset off') date_str i = Ok t' ->
  t + off = t' + off'.
Proof.
  intros H H'.
  apply get_unix_timestamp_fixed_Ok in H as (d & Hd & ->).
  apply get_unix_timestamp_fixed_Ok in H' as (d' & Hd' & ->).
  rewrite Hd in Hd'. injection Hd' as <-. lia.
Qed.

Lemma get_unix_timestamp_zone_shift_witness :
  get_unix_timestamp (fixed_offset 0) "2022-10-27" 0 = Ok 1666828800
  /\ get_unix_timestamp (fixed_offset 7200) "2022-10-27" 0 = Ok 1666821600
  /\ 1666828800 + 0 = 1666821600 + 7200.
Proof.
  split; [reflexivity|]. split; [reflexivity|].
  apply (get_unix_timestamp_zone_shift 0 7200 "2022-10-27" 0 1666828800 1666821600);
    reflexivity.
Defined.

(** ** What reaches the store *)

Lemma io_bind_Ok {A B : Type} (m : io A) (k : A -> io B) (b : B) :
  snd (io_bind m k) = Ok b -> exists a, snd m = Ok a /\ snd (k a) = Ok b.
Proof.
  destruct m as [out [a|e]]; simpl; [|discriminate].
  destruct (k a) as [out' r] eqn:Hk. simpl. intros ->. exists a.
  rewrite Hk. split; reflexivity.
Qed.

(** X13: [write_values] hands no Reading to the store: what it prints and
    whether it raises depend on the store only through its answer to the
    empty batch of records, for every list of Readings. *)
Theorem write_values_sends_no_record (client client' : Services)
    (reading : list Reading) :
  write_records_call client [] = write_records_call client' [] ->
  write_values client reading = write_values client' reading.
Proof.
  intros H. destruct reading as [|r reading].
  - unfold write_values. simpl. rewrite H. reflexivity.
  - rewrite !write_values_raises_on_readings. reflexivity.
Qed.

Lemma write_values_sends_no_record_witness :
  write_values (quiet_services "") sample_readings
  = write_values
      {| requests_get_text := fun _ => Err RequestException;
         timestream_client := Err ClientError;
         create_table_call := CreateRaises;
         write_records_call := fun records =>
           match records with
           | [] => WriteReturns (Some 200)
           | _ :: _ => WriteRaises
           end |}
      sample_readings.
Proof.
  apply (write_values_sends_no_record (quiet_services "")). reflexivity.
Defined.

(** X14: with no Reading to write, [write_values] raises in one case only:
    the store rejects the batch and lists no rejected record, so that the
    variable [rr] of the handler is unbound; any other answer or failure
    of the store is printed and swallowed. *)
Theorem write_values_empty_raises_iff (client : Services) (e : exception) :
  snd (write_values client []) = Err e
  <-> write_records_call client [] = WriteRejects [] /\ e = UnboundLocalError.
Proof.
  unfold write_values. simpl.
  destruct (write_records_call client []) as [[status|]|rejected|]; simpl;
    try (split; [discriminate | intros [? _]; discriminate]).
  unfold report_rejected. simpl.
  destruct rejected as [|rr rejected] using rev_ind; simpl.
  - split; [intros [= <-]; auto | intros [_ ->]; reflexivity].
  - rewrite last_snoc. simpl.
    split; [destruct (ExistingVersion rr); discriminate|].
    intros [H _]. apply (f_equal (fun a => match a with
                                           | WriteRejects l => length l
                                           | _ => 0%nat
                                           end)) in H.
    rewrite length_app in H. simpl in H. lia.
Qed.

(** X15: when records are rejected, one line is printed per rejected
    record, in order, after the line that announces the rejection; the
    existing version is printed for the last rejected record alone,
    whatever the records before it carry. *)
Theorem report_rejected_last_version (rejected : list RejectedRecord)
    (rr : RejectedRecord) :
  report_rejected (rejected ++ [rr])
  = ((PrintRejected
      :: map (fun r => PrintRejectedIndex (RecordIndex r) (Reason r)) (rejected ++ [rr]))
     ++ match ExistingVersion rr with
        | Some v => [PrintExistingVersion v]
        | None => []
        end,
     Ok tt)%list.
Proof.
  unfold report_rejected. simpl. rewrite last_snoc. simpl.
  destruct (ExistingVersion rr); simpl; rewrite ?app_nil_r; reflexivity.
Qed.

(** X16: [lambda_handler] returns a response only when there was nothing
    to write: if it returns, the response is status 200 with the JSON text
    of [Job successful], both dates were in the event, the fetch answered,
    and the document was parsed into no Reading at all. *)
Theorem lambda_handler_returns_only_without_reading (utcoffset : Z -> Z)
    (fromstring : string -> outcome Element) (services : Services)
    (event : gmap string string) (response : Response) :
  snd (lambda_handler utcoffset fromstring services event) = Ok response ->
  response = {| statusCode := 200; body := json_dumps "Job successful" |}
  /\ exists startDate endDate xml,
       event !! "startDate" = Some startDate
       /\ event !! "endDate" = Some endDate
       /\ requests_get_text services
            ("https://eco2mix.rte-france.com/curves/eco2mixWeb?type=mix&dateDeb="
             ++ startDate ++ "&dateFin=" ++ endDate ++ "&mode=NORM")%string = Ok xml
       /\ parse_xml utcoffset fromstring xml = Ok [].
Proof.
  intros H. unfold lambda_handler in H.
  apply io_bind_Ok in H as (startDate & Hs & H). apply of_option_Ok in Hs.
  apply io_bind_Ok in H as (endDate & He & H). apply of_option_Ok in He.
  apply io_bind_Ok in H as (xml & Hxml & H).
  apply io_bind_Ok in H as (p & Hp & H).
  apply io_bind_Ok in H as (? & _ & H).
  apply io_bind_Ok in H as (? & _ & H).
  apply io_bind_Ok in H as (? & _ & H).
  apply io_bind_Ok in H as (? & Hw & H).
  simpl in H. injection H as <-. split; [reflexivity|].
  exists startDate, endDate, xml. repeat (split; [assumption|]).
  destruct p as [|r p]; [exact Hp|].
  rewrite write_values_raises_on_readings in Hw. discriminate.
Qed.

Lemma lambda_handler_returns_only_without_reading_witness :
  parse_xml UTC (parses_to (document [])) "<liste/>" = Ok [].
Proof.
  destruct (lambda_handler_returns_only_without_reading UTC
              (parses_to (document [])) (quiet_services "<liste/>") sample_event
              {| statusCode := 200; body := json_dumps "Job successful" |}
              ltac:(vm_compute; reflexivity))
    as (_ & startDate & endDate & xml & _ & _ & Hxml & Hparse).
  injection Hxml as <-. exact Hparse.
Defined.

(** X17: what [client.create_table] answers never changes the outcome of
    [lambda_handler]: with the same fetch, the same client construction
    and the same answers to [write_records], the handler returns the same
    response or raises the same exception whether the table was created,
    existed already, or could not be created. *)
Theorem lambda_handler_ignores_create_table (utcoffset : Z -> Z)
    (fromstring : string -> outcome Element) (services : Services)
    (answer : create_answer) (event : gmap string string) :
  snd (lambda_handler utcoffset fromstring services event)
  = snd (lambda_handler utcoffset fromstring
           {| requests_get_text := requests_get_text services;
              timestream_client := timestream_client services;
              create_table_call := answer;
              write_records_call := write_records_call services |} event).
Proof.
  unfold lambda_handler. simpl.
  destruct (dict_getitem event "startDate") as [startDate|]; [|reflexivity].
  destruct (dict_getitem event "endDate") as [endDate|]; [|reflexivity].
  simpl. destruct (requests_get_text services _) as [xml|]; [|reflexivity].
  simpl. destruct (parse_xml utcoffset fromstring xml) as [p|]; [|reflexivity].
  simpl. destruct (timestream_client services) as [[]|]; [|reflexivity].
  unfold create_table. simpl.
  destruct p as [|r p].
  - unfold write_values. simpl.
    destruct (create_table_call services); destruct answer; simpl;
      destruct (write_records_call services []) as [[status|]|rejected|]; simpl;
      try reflexivity;
      destruct (report_rejected rejected) as [out [[]|e]]; reflexivity.
  - destruct (create_table_call services); destruct answer; reflexivity.
Qed.

(** ** The request URL *)

(** X18: when both dates of the event are the text of one day in the form
    day/month/year, the URL that [lambda_handler] fetches is
    [get_url_for_day] of that day: a fetch that fails on this URL fails the
    handler with the same exception, before anything is printed. *)
Theorem lambda_handler_fetches_url_for_day (utcoffset : Z -> Z)
    (fromstring : string -> outcome Element) (services : Services)
    (event : gmap string string) (day : date.t) (e : exception) :
  event !! "startDate" = Some (date.strftime_dmy day) ->
  event !! "endDate" = Some (date.strftime_dmy day) ->
  requests_get_text services (get_url_for_day day) = Err e ->
  lambda_handler utcoffset fromstring services event = ([], Err e).
Proof.
  intros Hs He Hget. unfold lambda_handler, dict_getitem. rewrite Hs, He. simpl.
  unfold get_url_for_day in Hget. rewrite Hget. reflexivity.
Qed.

Lemma lambda_handler_fetches_url_for_day_witness :
  lambda_handler UTC (parses_to sample_document)
    {| requests_get_text := fun url =>
         if String.eqb url
              "https://eco2mix.rte-france.com/curves/eco2mixWeb?type=mix&dateDeb=27/10/2022&dateFin=27/10/2022&mode=NORM"
         then Err RequestException else Ok "<liste/>";
       timestream_client := Ok tt;
       create_table_call := CreateReturns;
       write_records_call := fun _ => WriteReturns (Some 200) |}
    sample_event
  = ([], Err RequestException).
Proof.
  apply (lambda_handler_fetches_url_for_day UTC _ _ sample_event
           (date.mk 2022 10 27) RequestException);
    vm_compute; reflexivity.
Defined.

(** X19: the date text that [get_url_for_day] puts in the URL is not one
    that [get_unix_timestamp] reads: for every day, interval and zone, the
    day/month/year text is refused with ValueError. *)
Theorem get_unix_timestamp_rejects_url_date (utcoffset : Z -> Z)
    (day : date.t) (period : Z) :
  get_unix_timestamp utcoffset (date.strftime_dmy day) period = Err ValueError.
Proof.
  unfold date.strftime_dmy, date.two_digits.
  apply (get_unix_timestamp_slash utcoffset).
Qed.

(** ** The order of the nodes *)

Lemma sum_list_map_perm {A : Type} (f : A -> Z) (l l' : list A) :
  l ≡ₚ l' -> sum_list (map f l) = sum_list (map f l').
Proof.
  induction 1; simpl; lia.
Qed.

Lemma In_perm {A : Type} (l l' : list A) (x : A) : l ≡ₚ l' -> In x l <-> In x l'.
Proof.
  intros H. rewrite <- !list_elem_of_In. rewrite H. reflexivity.
Qed.

(** The value of an energy key in a returned reading: the total, when a
    period node is added to it, and no key otherwise. *)
Lemma parse_xml_day_lookup (utcoffset : Z -> Z) (day_element : Element)
    (result : list Reading) (i : nat) (r : Reading) (c : string) :
  parse_xml_day utcoffset day_element = Ok result ->
  result !! i = Some r -> c <> "time" -> c <> "country" ->
  (r !! c = None /\ ~ contributed (length result) i c day_element)
  \/ (r !! c = Some (VInt (day_total (length result) i c day_element))
      /\ contributed (length result) i c day_element).
Proof.
  intros H Hr Htime Hcountry.
  pose proof (parse_xml_day_totals _ _ _ H i r c Hr Htime Hcountry) as Hget.
  unfold dict_get in Hget.
  destruct (r !! c) as [x|] eqn:Hc.
  - right. split; [congruence|].
    destruct (parse_xml_day_keys _ _ _ i r c H Hr) as [?|[?|?]];
      [congruence | contradiction | contradiction | assumption].
  - left. split; [reflexivity|].
    intros (el & p & Hel & Hp & Hn & k & Hk & Hi).
    destruct (parse_xml_day_present _ _ _ _ _ _ _ _ H Hel Hp Hn Hk Hi) as (r' & Hr' & Hc').
    congruence.
Qed.

Lemma parse_xml_day_fixed (utcoffset : Z -> Z) (day_element : Element)
    (result : list Reading) (i : nat) (r : Reading) :
  parse_xml_day utcoffset day_element = Ok result ->
  result !! i = Some r ->
  length result = intervals day_element
  /\ exists r0, new_reading utcoffset day_element (Z.of_nat i) = Ok r0
                /\ r !! "time" = r0 !! "time" /\ r !! "country" = r0 !! "country".
Proof.
  intros H Hr.
  apply parse_xml_day_Ok in H as (first & result0 & Hfirst & H0 & Hlen & [Hl Hadds]).
  split.
  { unfold intervals. destruct (children day_element); [discriminate|].
    injection Hfirst as ->. assumption. }
  destruct (lookup_lt_is_Some_2 result0 i) as [r0 Hr0].
  { rewrite <- Hl. eapply lookup_lt_Some. eassumption. }
  destruct (Hadds i r0 Hr0) as (r' & Hr' & Ht & Hc & _).
  rewrite Hr in Hr'. injection Hr' as <-.
  destruct (comprehension_Ok _ _ _ H0) as [Hl0 Hall].
  assert (Hi : (i < length (children first))%nat).
  { rewrite <- Hlen. eapply lookup_lt_Some. eassumption. }
  destruct (Hall i _ (range_lookup _ _ Hi)) as (r1 & Hr1 & Hnew).
  rewrite Hr0 in Hr1. injection Hr1 as <-. eauto.
Qed.

(** Two days with the same attributes, the same number of intervals, the
    same contributions and the same totals are parsed to the same
    Readings. *)
Lemma parse_xml_day_determined (utcoffset : Z -> Z) (day day' : Element)
    (result result' : list Reading) :
  parse_xml_day utcoffset day = Ok result ->
  parse_xml_day utcoffset day' = Ok result' ->
  attrib day = attrib day' ->
  intervals day = intervals day' ->
  (forall i c, contributed (intervals day) i c day
               <-> contributed (intervals day) i c day') ->
  (forall i c, day_total (intervals day) i c day = day_total (intervals day) i c day') ->
  result = result'.
Proof.
  intros H H' Ha Hn Hc Ht.
  assert (Hlen : length result = intervals day).
  { destruct result as [|r result]; [|apply (parse_xml_day_fixed _ _ _ 0 r H eq_refl)].
    apply parse_xml_day_Ok in H as (first & _ & Hfirst & _ & Hl & _).
    unfold intervals. destruct (children day); [discriminate|].
    injection Hfirst as ->. assumption. }
  assert (Hlen' : length result' = intervals day).
  { rewrite Hn. destruct result' as [|r result'];
      [|apply (parse_xml_day_fixed _ _ _ 0 r H' eq_refl)].
    apply parse_xml_day_Ok in H' as (first & _ & Hfirst & _ & Hl & _).
    unfold intervals. destruct (children day'); [discriminate|].
    injection Hfirst as ->. assumption. }
  apply list_eq. intros i.
  destruct (result !! i) as [r|] eqn:Hr.
  - destruct (lookup_lt_is_Some_2 result' i) as [r' Hr'].
    { rewrite Hlen', <- Hlen. eapply lookup_lt_Some. eassumption. }
    rewrite Hr'. f_equal. apply map_eq. intros c.
    destruct (parse_xml_day_fixed _ _ _ _ _ H Hr) as (_ & r0 & Hnew & Htime & Hcountry).
    destruct (parse_xml_day_fixed _ _ _ _ _ H' Hr') as (_ & r0' & Hnew' & Htime' & Hcountry').
    assert (r0' = r0) as ->.
    { unfold new_reading in Hnew, Hnew'. rewrite <- Ha in Hnew'. congruence. }
    destruct (decide (c = "time")) as [->|Hct]; [congruence|].
    destruct (decide (c = "country")) as [->|Hcc]; [congruence|].
    destruct (parse_xml_day_lookup _ _ _ _ _ c H Hr Hct Hcc) as [[Hx Hno]|[Hx Hyes]];
      destruct (parse_xml_day_lookup _ _ _ _ _ c H' Hr' Hct Hcc) as [[Hx' Hno']|[Hx' Hyes']];
      rewrite Hlen in *; rewrite Hlen' in *.
    + congruence.
    + exfalso. apply Hno. apply Hc. assumption.
    + exfalso. apply Hno'. apply Hc. assumption.
    + rewrite Hx, Hx', Ht. reflexivity.
  - symmetry. apply lookup_ge_None. rewrite Hlen', <- Hlen.
    apply lookup_ge_None. assumption.
Qed.

Lemma accepted_day_transfer (utcoffset : Z -> Z) (day day' : Element) :
  accepted_day utcoffset day = true ->
  attrib day = attrib day' ->
  intervals day = intervals day' ->
  children day' <> [] ->
  (forall el, In el (children day') ->
              accepted_energy_type (intervals day) el = true) ->
  accepted_day utcoffset day' = true.
Proof.
  unfold accepted_day, intervals. intros H Ha Hn Hne Hall.
  destruct (children day) as [|first rest]; [discriminate|].
  destruct (children day') as [|first' rest'] eqn:Hch'; [congruence|].
  rewrite <- Hn, <- Ha. apply andb_prop in H as [Hdate _].
  rewrite Hdate. cbn [andb].
  apply (proj2 (forallb_forall _ (first' :: rest'))). exact Hall.
Qed.

Lemma accepted_day_each (utcoffset : Z -> Z) (day el : Element) :
  accepted_day utcoffset day = true -> In el (children day) ->
  accepted_energy_type (intervals day) el = true.
Proof.
  unfold accepted_day, intervals. intros H Hel.
  destruct (children day) as [|first rest]; [discriminate|].
  apply andb_prop in H as [_ H]. rewrite forallb_forall in H. auto.
Qed.

(** X20: the order of the energy-type nodes of a day does not matter, as
    long as the first node keeps as many period nodes: a day that is
    parsed is parsed to the same Readings once its energy-type nodes are
    permuted. *)
Theorem parse_xml_day_energy_type_order (utcoffset : Z -> Z) (day_element : Element)
    (energy_types : list Element) (result : list Reading) :
  children day_element ≡ₚ energy_types ->
  intervals (with_children day_element energy_types) = intervals day_element ->
  parse_xml_day utcoffset day_element = Ok result ->
  parse_xml_day utcoffset (with_children day_element energy_types) = Ok result.
Proof.
  intros Hperm Hn H.
  assert (Ha : accepted_day utcoffset day_element = true)
    by (apply parse_xml_day_returns_accepted; eauto).
  assert (Ha' : accepted_day utcoffset (with_children day_element energy_types) = true).
  { apply (accepted_day_transfer utcoffset day_element); auto.
    - simpl. intros ->. apply Permutation_nil_r in Hperm.
      unfold accepted_day in Ha. rewrite Hperm in Ha. discriminate.
    - simpl. intros el Hel. apply (accepted_day_each utcoffset); [assumption|].
      apply (In_perm _ _ el Hperm). assumption. }
  rewrite <- parse_xml_day_is_ok in Ha'.
  destruct (parse_xml_day utcoffset (with_children day_element energy_types))
    as [result'|e] eqn:H'; [|discriminate].
  f_equal. symmetry.
  apply (parse_xml_day_determined utcoffset day_element
           (with_children day_element energy_types)); auto.
  - intros i c. unfold contributed. simpl.
    split; intros (el & p & Hel & Hp); exists el, p;
      (split; [apply (In_perm _ _ el Hperm); assumption | assumption]).
  - intros i c. unfold day_total. simpl. apply sum_list_map_perm. assumption.
Qed.

Lemma parse_xml_day_energy_type_order_witness :
  parse_xml_day UTC
    (with_children oil_day
       [energy_type_node "Fioul + Pointe"
          [period_node "0" (Some "5"); period_node "1" (Some "ND")];
        energy_type_node "Pointe"
          [period_node "1" (Some "100"); period_node "0" (Some "7")]])
  = Ok [reading1 1666828800 "oil" 12; reading1 1666829700 "oil" 100].
Proof.
  apply (parse_xml_day_energy_type_order UTC oil_day).
  - apply perm_swap.
  - reflexivity.
  - vm_compute. reflexivity.
Defined.

Lemma normalize_with_children (el : Element) (ps : list Element) :
  normalize (with_children el ps) = normalize el.
Proof. reflexivity. Qed.

Lemma accepted_energy_type_perm (n : nat) (el : Element) (ps : list Element) :
  children el ≡ₚ ps ->
  accepted_energy_type n el = true ->
  accepted_energy_type n (with_children el ps) = true.
Proof.
  intros Hperm H. unfold accepted_energy_type, valid_energy_type in *.
  rewrite normalize_with_children. simpl.
  destruct ps as [|p ps]; [reflexivity|].
  destruct (children el) as [|q qs] eqn:Hch;
    [apply Permutation_nil_l in Hperm; discriminate|].
  destruct (normalize el); [|discriminate].
  rewrite forallb_forall in *. intros x Hx. apply H.
  apply (In_perm _ _ x Hperm). assumption.
Qed.

Lemma touches_with_children (n i : nat) (c : string) (el p : Element)
    (ps : list Element) :
  touches n i c (with_children el ps) p <-> touches n i c el p.
Proof. reflexivity. Qed.

Lemma energy_type_total_perm (n i : nat) (c : string) (el : Element)
    (ps : list Element) :
  children el ≡ₚ ps ->
  energy_type_total n i c (with_children el ps) = energy_type_total n i c el.
Proof.
  intros Hperm. unfold energy_type_total. simpl.
  rewrite (sum_list_map_perm _ _ _ Hperm). reflexivity.
Qed.

(** X21: the order of the period nodes inside an energy-type node does not
    matter: a day that is parsed is parsed to the same Readings once the
    period nodes of one of its energy-type nodes are permuted, each value
    going where its own [periode] attribute says. *)
Theorem parse_xml_day_period_order (utcoffset : Z -> Z) (day_element el : Element)
    (before after periods : list Element) (result : list Reading) :
  children day_element = (before ++ el :: after)%list ->
  children el ≡ₚ periods ->
  parse_xml_day utcoffset day_element = Ok result ->
  parse_xml_day utcoffset
    (with_children day_element (before ++ with_children el periods :: after)%list)
  = Ok result.
Proof.
  intros Hch Hperm H.
  set (day' := with_children day_element
                 (before ++ with_children el periods :: after)%list).
  assert (Hn : intervals day_element = intervals day').
  { unfold intervals, day'. simpl. rewrite Hch.
    destruct before as [|b before]; simpl; [|reflexivity].
    apply Permutation_length. assumption. }
  assert (Ha : accepted_day utcoffset day_element = true)
    by (apply parse_xml_day_returns_accepted; eauto).
  assert (Ha' : accepted_day utcoffset day' = true).
  { apply (accepted_day_transfer utcoffset day_element); auto.
    - simpl. destruct before; discriminate.
    - simpl. intros x Hx. apply in_app_or in Hx as [Hx|[<-|Hx]].
      + apply (accepted_day_each utcoffset); [assumption|].
        rewrite Hch. apply in_or_app. auto.
      + apply accepted_energy_type_perm; [assumption|].
        apply (accepted_day_each utcoffset); [assumption|].
        rewrite Hch. apply in_or_app. right. left. reflexivity.
      + apply (accepted_day_each utcoffset); [assumption|].
        rewrite Hch. apply in_or_app. right. right. assumption. }
  rewrite <- parse_xml_day_is_ok in Ha'.
  destruct (parse_xml_day utcoffset day') as [result'|e] eqn:H'; [|discriminate].
  f_equal. symmetry.
  apply (parse_xml_day_determined utcoffset day_element day'); auto.
  - intros i c. unfold contributed, day'. simpl. rewrite Hch. split.
    + intros (x & p & Hx & Hp & Ht). apply in_app_or in Hx as [Hx|[<-|Hx]].
      * exists x, p. split; [apply in_or_app; auto | auto].
      * exists (with_children el periods), p.
        split; [apply in_or_app; right; left; reflexivity|].
        split; [simpl; apply (In_perm _ _ p Hperm); assumption | exact Ht].
      * exists x, p. split; [apply in_or_app; right; right; assumption | auto].
    + intros (x & p & Hx & Hp & Ht). apply in_app_or in Hx as [Hx|[<-|Hx]].
      * exists x, p. split; [apply in_or_app; auto | auto].
      * exists el, p.
        split; [apply in_or_app; right; left; reflexivity|].
        split; [apply (In_perm _ _ p Hperm); exact Hp | exact Ht].
      * exists x, p. split; [apply in_or_app; right; right; assumption | auto].
  - intros i c. unfold day_total, day'. simpl. rewrite Hch.
    rewrite !map_app. simpl. rewrite energy_type_total_perm by assumption.
    reflexivity.
Qed.

Lemma parse_xml_day_period_order_witness :
  parse_xml_day UTC
    (with_children oil_day
       [energy_type_node "Pointe"
          [period_node "1" (Some "100"); period_node "0" (Some "7")];
        with_children
          (energy_type_node "Fioul + Pointe"
             [period_node "0" (Some "5"); period_node "1" (Some "ND")])
          [period_node "1" (Some "ND"); period_node "0" (Some "5")]])
  = Ok [reading1 1666828800 "oil" 12; reading1 1666829700 "oil" 100].
Proof.
  apply (parse_xml_day_period_order UTC oil_day
           (energy_type_node "Fioul + Pointe"
              [period_node "0" (Some "5"); period_node "1" (Some "ND")])
           [energy_type_node "Pointe"
              [period_node "1" (Some "100"); period_node "0" (Some "7")]] []).
  - reflexivity.
  - apply perm_swap.
  - vm_compute. reflexivity.
Defined.

(** X22: an event without [startDate], or with [startDate] and without
    [endDate], makes [lambda_handler] raise the KeyError of the missing
    key before anything is fetched or printed, whatever the services would
    answer. *)
Theorem lambda_handler_missing_date (utcoffset : Z -> Z)
    (fromstring : string -> outcome Element) (services : Services)
    (event : gmap string string) :
  (event !! "startDate" = None ->
   lambda_handler utcoffset fromstring services event
   = ([], Err (KeyError "startDate")))
  /\ (forall startDate, event !! "startDate" = Some startDate ->
        event !! "endDate" = None ->
        lambda_handler utcoffset fromstring services event
        = ([], Err (KeyError "endDate"))).
Proof.
  unfold lambda_handler, dict_getitem. split.
  - intros ->. reflexivity.
  - intros startDate -> ->. reflexivity.
Qed.

Lemma lambda_handler_missing_date_witness :
  lambda_handler UTC (parses_to sample_document) (quiet_services "<liste/>")
    (<["startDate" := "27/10/2022"]> ∅)
  = ([], Err (KeyError "endDate")).
Proof.
  apply (proj2 (lambda_handler_missing_date UTC (parses_to sample_document)
                  (quiet_services "<liste/>") (<["startDate" := "27/10/2022"]> ∅))
           "27/10/2022");
    reflexivity.
Defined.

(** The URL of the docstring of [get_url_for_day]. *)
Lemma get_url_for_day_docstring :
  get_url_for_day (date.mk 2022 10 27)
  = "https://eco2mix.rte-france.com/curves/eco2mixWeb?type=mix&dateDeb=27/10/2022&dateFin=27/10/2022&mode=NORM".
Proof. reflexivity. Qed.

(** X23: the values of a Reading that [parse_xml_day] returns are
    integers, except the one of [country], which is the text [FR]; no
    energy field ever holds a text, whatever the document holds. *)
Theorem parse_xml_day_values (utcoffset : Z -> Z) (day_element : Element)
    (result : list Reading) (i : nat) (r : Reading) (c : string) (x : pyval) :
  parse_xml_day utcoffset day_element = Ok result ->
  result !! i = Some r -> r !! c = Some x ->
  (c = "country" /\ x = VStr "FR") \/ (c <> "country" /\ exists n, x = VInt n).
Proof.
  intros H Hr Hc.
  destruct (decide (c = "country")) as [->|Hne].
  - left. split; [reflexivity|].
    destruct (parse_xml_day_fixed _ _ _ _ _ H Hr) as (_ & r0 & Hnew & _ & Hcountry).
    apply new_reading_Ok in Hnew as (date & time & _ & _ & ->).
    destruct (initial_reading_fields time) as (_ & Hfr & _).
    rewrite Hcountry, Hfr in Hc. congruence.
  - right. split; [assumption|].
    apply parse_xml_day_Ok in H as (first & result0 & _ & H0 & _ & Hadds).
    pose proof (adds_typed _ _ _ Hadds (initial_readings_typed _ _ _ _ H0)) as Ht.
    destruct (Forall_lookup_1 _ _ _ _ Ht Hr c x Hc) as [?|?]; [contradiction | assumption].
Qed.

Lemma parse_xml_day_values_witness :
  ("oil" = "country" /\ VInt 12 = VStr "FR")
  \/ ("oil" <> "country" /\ exists n, VInt 12 = VInt n).
Proof.
  exact (parse_xml_day_values UTC oil_day
           [reading1 1666828800 "oil" 12; reading1 1666829700 "oil" 100]
           0%nat (reading1 1666828800 "oil" 12) "oil" (VInt 12)
           ltac:(vm_compute; reflexivity) eq_refl ltac:(vm_compute; reflexivity)).
Defined.

(** ** The range of [get_unix_timestamp] *)

(** Up to the shifted date: the date plus the intervals, or OverflowError
    past the last day that [datetime] represents. *)
Lemma get_unix_timestamp_shifted (utcoffset : Z -> Z) (date_str : string)
    (d : datetime.t) (i : Z) :
  datetime.strptime_ymd date_str = Ok d ->
  0 <= i ->
  get_unix_timestamp utcoffset date_str i
  = if datetime.ordinal d + (900 * i) / 86400 <=? datetime.MAXORDINAL
    then datetime.timestamp utcoffset
           (datetime.mk (datetime.ordinal d + (900 * i) / 86400)
                        ((900 * i) mod 86400))
    else Err OverflowError.
Proof.
  intros Hd Hi. destruct (strptime_ymd_ordinal _ _ Hd) as [Hsec Hord].
  unfold get_unix_timestamp. rewrite Hd. cbn [bind].
  unfold datetime.timedelta_minutes, datetime.add, datetime.MAXORDINAL.
  replace (i * 15 * 60) with (900 * i) by lia.
  pose proof (Z.div_pos (900 * i) 86400 ltac:(lia) ltac:(lia)) as Hq.
  pose proof (Z.mod_pos_bound (900 * i) 86400 ltac:(lia)) as Hm.
  set (q := 900 * i / 86400) in *. set (m := (900 * i) mod 86400) in *.
  destruct (Z.abs q <=? 999999999) eqn:E1; cbn [bind datetime.days datetime.seconds].
  - rewrite Hsec, Z.add_0_l, (Z.div_small m 86400 Hm), (Z.mod_small m 86400 Hm),
      Z.add_0_r.
    rewrite (proj2 (Z.leb_le 1 (datetime.ordinal d + q))) by lia.
    cbn [andb]. destruct (datetime.ordinal d + q <=? 3652059); reflexivity.
  - apply Z.leb_gt in E1.
    destruct (datetime.ordinal d + q <=? 3652059) eqn:E2; [|reflexivity].
    apply Z.leb_le in E2. lia.
Qed.

Lemma local_UTC_Ok (u : Z) :
  1 * 86400 <= u < (datetime.MAXORDINAL + 1) * 86400 ->
  datetime.local UTC u = Ok u.
Proof.
  intros Hu. unfold datetime.local, UTC. rewrite Z.add_0_r.
  destruct (1 * 86400 <=? u) eqn:E1; [|apply Z.leb_gt in E1; lia].
  destruct (u <? _) eqn:E2; [reflexivity | apply Z.ltb_ge in E2; lia].
Qed.

Lemma local_UTC_Err (u : Z) :
  u < 1 * 86400 -> datetime.local UTC u = Err ValueError.
Proof.
  intros Hu. unfold datetime.local, UTC. rewrite Z.add_0_r.
  destruct (1 * 86400 <=? u) eqn:E1; [apply Z.leb_le in E1; lia | reflexivity].
Qed.

(** On the first day that [datetime] represents the search for an earlier
    solution leaves the range of years. *)
Lemma timestamp_UTC_first_day (m : Z) :
  0 <= m < 86400 ->
  datetime.timestamp UTC (datetime.mk 1 m) = Err ValueError.
Proof.
  intros Hm. unfold datetime.timestamp, datetime.local_to_seconds,
    datetime.utc_to_seconds.
  cbn [datetime.ordinal datetime.second].
  rewrite local_UTC_Ok by (unfold datetime.MAXORDINAL; lia). cbn [bind].
  rewrite Z.sub_diag, Z.sub_0_r.
  rewrite local_UTC_Ok by (unfold datetime.MAXORDINAL; lia). cbn [bind].
  rewrite Z.eqb_refl.
  rewrite local_UTC_Err by (unfold datetime.max_fold_seconds; lia).
  reflexivity.
Qed.

(** C2 (as the code has it): in a process whose local zone is UTC, for
    every date text that [strptime] reads (here: written with ASCII
    digits) and every interval index [i >= 0], [get_unix_timestamp]
    returns the time of that date at midnight UTC plus [900 * i] seconds
    when the date plus [i] quarters of an hour lies between the second and
    the last day that [datetime] represents; it raises OverflowError when
    that day is past the last one, and ValueError when it is the first
    one, 0001-01-01. *)
Theorem get_unix_timestamp_utc_midnight (date_str : string) (d : datetime.t) (i : Z) :
  datetime.strptime_ymd date_str = Ok d ->
  0 <= i ->
  (2 <= datetime.ordinal d + (900 * i) / 86400 <= datetime.MAXORDINAL ->
   get_unix_timestamp UTC date_str i = Ok (utc_midnight d + 900 * i))
  /\ (datetime.MAXORDINAL < datetime.ordinal d + (900 * i) / 86400 ->
      get_unix_timestamp UTC date_str i = Err OverflowError)
  /\ (datetime.ordinal d + (900 * i) / 86400 < 2 ->
      get_unix_timestamp UTC date_str i = Err ValueError).
Proof.
  intros Hd Hi. rewrite (get_unix_timestamp_shifted UTC date_str d i Hd Hi).
  destruct (strptime_ymd_ordinal _ _ Hd) as [_ Hord].
  pose proof (Z.div_pos (900 * i) 86400 ltac:(lia) ltac:(lia)) as Hq.
  pose proof (Z.mod_pos_bound (900 * i) 86400 ltac:(lia)) as Hm.
  pose proof (Z.div_mod (900 * i) 86400 ltac:(lia)) as Hdm.
  unfold datetime.MAXORDINAL in *.
  split; [|split].
  - intros [Hlo Hhi]. rewrite (proj2 (Z.leb_le _ _) Hhi).
    unfold datetime.timestamp. rewrite local_to_seconds_UTC.
    + cbn [bind]. f_equal.
      unfold datetime.utc_to_seconds, utc_midnight, datetime.epoch,
        datetime.EPOCH_ORDINAL. cbn [datetime.ordinal datetime.second]. lia.
    + unfold datetime.utc_to_seconds, datetime.MAXORDINAL.
      cbn [datetime.ordinal datetime.second]. lia.
  - intros Hhi. rewrite (proj2 (Z.leb_gt _ _)) by lia. reflexivity.
  - intros Hlo. rewrite (proj2 (Z.leb_le _ _)) by lia.
    replace (datetime.ordinal d + 900 * i / 86400) with 1 by lia.
    apply timestamp_UTC_first_day. assumption.
Qed.

Lemma get_unix_timestamp_utc_midnight_witness :
  get_unix_timestamp UTC "2022-10-27" 95 = Ok (1666828800 + 900 * 95)
  /\ get_unix_timestamp UTC "9999-12-31" 96 = Err OverflowError
  /\ get_unix_timestamp UTC "0001-01-01" 95 = Err ValueError.
Proof.
  split; [|split].
  - apply (proj1 (get_unix_timestamp_utc_midnight "2022-10-27"
                    (datetime.mk 738455 0) 95 eq_refl ltac:(lia)));
      vm_compute; split; congruence.
  - apply (proj1 (proj2 (get_unix_timestamp_utc_midnight "9999-12-31"
                           (datetime.mk 3652059 0) 96 eq_refl ltac:(lia))));
      vm_compute; reflexivity.
  - apply (proj2 (proj2 (get_unix_timestamp_utc_midnight "0001-01-01"
                           (datetime.mk 1 0) 95 eq_refl ltac:(lia))));
      vm_compute; reflexivity.
Defined.
